(** * SentinelX: alert classification, sorting and polling fallback

    A shallow embedding of the logic of the SentinelX dashboard
    (React/TypeScript) and the properties its specification states:

    - [Dashboard.tsx]: [getRiskColor], [getRiskBadgeColor], [fetchData] and
      the confidence guard of the detection card;
    - [SafetyResponsePanel]: [getSafetyActions], [getSeverityColor];
    - [AlertHistory.tsx]: [handleSort] and [sortedAlerts];
    - [HazardAlerts]: [fetchAlerts].

    JavaScript strings are embedded as [string]; [toLowerCase] and
    [toUpperCase] fold the ASCII letters, which covers every keyword the code
    compares against, and leave other characters as they are: they are the
    built-ins on ASCII text. *)

From Stdlib Require Import ZArith Ascii String.
From stdpp Require Import base list strings sorting gmap.

Local Open Scope Z_scope.

(** ** JavaScript string built-ins *)

Module JS.

(** [c.toLowerCase()] on one character: [A]..[Z] move to [a]..[z]. *)
Definition lowerChar (c : ascii) : ascii :=
  let n := N_of_ascii c in
  if (65 <=? n)%N && (n <=? 90)%N then ascii_of_N (n + 32) else c.

(** [String.prototype.toLowerCase] on ASCII text.  The built-in also folds
    letters outside ASCII (U+212A KELVIN SIGN becomes [k]); those are left
    as they are here. *)
Fixpoint toLowerCase (s : string) : string :=
  match s with
  | EmptyString => EmptyString
  | String c s' => String (lowerChar c) (toLowerCase s')
  end.

(** [c.toUpperCase()] on one character: [a]..[z] move to [A]..[Z]. *)
Definition upperChar (c : ascii) : ascii :=
  let n := N_of_ascii c in
  if (97 <=? n)%N && (n <=? 122)%N then ascii_of_N (n - 32) else c.

(** [String.prototype.toUpperCase] on ASCII text.  The built-in also folds
    letters outside ASCII (U+0131 becomes [I], U+017F becomes [S], U+00DF
    becomes [SS]); those are left as they are here. *)
Fixpoint toUpperCase (s : string) : string :=
  match s with
  | EmptyString => EmptyString
  | String c s' => String (upperChar c) (toUpperCase s')
  end.

(** ASCII text: every character is below 128.  On such text the two folds
    above are the built-ins. *)
Fixpoint isASCII (s : string) : bool :=
  match s with
  | EmptyString => true
  | String c s' => (N_of_ascii c <? 128)%N && isASCII s'
  end.

(** [s.startsWith(needle)]. *)
Fixpoint startsWith (s needle : string) {struct needle} : bool :=
  match needle with
  | EmptyString => true
  | String a needle' =>
      match s with
      | EmptyString => false
      | String b s' => if Ascii.eqb a b then startsWith s' needle' else false
      end
  end.

(** [s.includes(needle)]: [needle] occurs at some position of [s]. *)
Fixpoint includes (s needle : string) : bool :=
  startsWith s needle ||
  match s with
  | EmptyString => false
  | String _ s' => includes s' needle
  end.

(** *** [Array.prototype.sort]

    [arr.sort(comparefn)] reads the sign of [comparefn(a, b)]: negative
    puts [a] first, positive puts [b] first, zero keeps the two as they
    are.  ECMAScript requires the sort to be stable, so for a consistent
    comparator the outcome is the one stable sorted arrangement of the
    array, computed here by stable insertion. *)
Section ArraySort.
Context {A : Type} (comparefn : A → A → Z).

Fixpoint sortInsert (x : A) (sorted : list A) : list A :=
  match sorted with
  | [] => [x]
  | y :: ys =>
      if comparefn x y <=? 0 then x :: y :: ys else y :: sortInsert x ys
  end.

Fixpoint Array_sort (l : list A) : list A :=
  match l with
  | [] => []
  | x :: xs => sortInsert x (Array_sort xs)
  end.
End ArraySort.

(** *** [Date.prototype.toISOString]

    A time value is a number of milliseconds since 1970-01-01T00:00Z;
    [toISOString] prints it as [YYYY-MM-DDTHH:mm:ss.sssZ] in the proleptic
    Gregorian calendar (years outside 0..9999 take a sign and six
    digits). *)
Definition msPerDay : Z := 86400000.

(** Year, month and day of the day number [z] (days since 1970-01-01). *)
Definition civilFromDays (z : Z) : Z * Z * Z :=
  let z := z + 719468 in
  let era := z / 146097 in
  let doe := z - era * 146097 in
  let yoe := (doe - doe / 1460 + doe / 36524 - doe / 146096) / 365 in
  let y := yoe + era * 400 in
  let doy := doe - (365 * yoe + yoe / 4 - yoe / 100) in
  let mp := (5 * doy + 2) / 153 in
  let d := doy - (153 * mp + 2) / 5 + 1 in
  let m := if mp <? 10 then mp + 3 else mp - 9 in
  (if m <=? 2 then y + 1 else y, m, d).

Definition digit (n : Z) : ascii := ascii_of_N (48 + Z.to_N (n mod 10)).

(** The [k] low decimal digits of [n], most significant first. *)
Fixpoint pad (k : nat) (n : Z) (rest : string) : string :=
  match k with
  | O => rest
  | S k' => pad k' (n / 10) (String (digit n) rest)
  end.

Definition yearString (y : Z) : string :=
  if (0 <=? y) && (y <=? 9999) then pad 4 y ""
  else if y <? 0 then String "-" (pad 6 (- y) "")
  else String "+" (pad 6 y "").

Definition toISOString (t : Z) : string :=
  let '(y, m, d) := civilFromDays (t / msPerDay) in
  let ms := t mod msPerDay in
  yearString y +:+ "-" +:+ pad 2 m "" +:+ "-" +:+ pad 2 d "" +:+ "T" +:+
  pad 2 (ms / 3600000) "" +:+ ":" +:+ pad 2 (ms / 60000 mod 60) "" +:+ ":" +:+
  pad 2 (ms / 1000 mod 60) "" +:+ "." +:+ pad 3 (ms mod 1000) "" +:+ "Z".

(** Day number of a calendar date, the inverse of [civilFromDays]. *)
Definition daysFromCivil (y m d : Z) : Z :=
  let y := if m <=? 2 then y - 1 else y in
  let era := y / 400 in
  let yoe := y - era * 400 in
  let doy := (153 * (if 2 <? m then m - 3 else m + 9) + 2) / 5 + d - 1 in
  let doe := yoe * 365 + yoe / 4 - yoe / 100 + doy in
  era * 146097 + doe - 719468.

Definition digitValue (c : ascii) : Z := Z.of_N (N_of_ascii c) - 48.

(** [new Date(s).getTime()] on the strings [toISOString] prints with a
    four-digit year; other date strings read as 0 here. *)
Definition getTimeISO (s : string) : Z :=
  match digitValue <$> list_ascii_of_string s with
  | [y1; y2; y3; y4; _; m1; m2; _; d1; d2; _; h1; h2; _; n1; n2; _; s1; s2; _;
     f1; f2; f3; _] =>
      daysFromCivil (1000 * y1 + 100 * y2 + 10 * y3 + y4) (10 * m1 + m2)
        (10 * d1 + d2) * msPerDay
      + (10 * h1 + h2) * 3600000 + (10 * n1 + n2) * 60000
      + (10 * s1 + s2) * 1000 + 100 * f1 + 10 * f2 + f3
  | _ => 0
  end.

(** [a.localeCompare(b)] under a collation that orders strings by their
    code units. *)
Fixpoint ordinalCompare (a b : string) : Z :=
  match a, b with
  | EmptyString, EmptyString => 0
  | EmptyString, String _ _ => -1
  | String _ _, EmptyString => 1
  | String x a', String y b' =>
      let d := Z.of_N (N_of_ascii x) - Z.of_N (N_of_ascii y) in
      if d =? 0 then ordinalCompare a' b' else d
  end.

(** [String(n)] for an integral number. *)
Fixpoint digitsOf (fuel : nat) (n : Z) (rest : string) : string :=
  match fuel with
  | O => rest
  | S fuel' =>
      if n <? 10 then String (digit n) rest
      else digitsOf fuel' (n / 10) (String (digit n) rest)
  end.

Definition Number_toString (n : Z) : string :=
  let m := Z.abs n in
  let ds := digitsOf (S (Z.to_nat (Z.log2 m))) m "" in
  if n <? 0 then String "-" ds else ds.

End JS.

(** A consistent comparator, as ECMAScript asks of the function passed to
    [Array.prototype.sort] and of [localeCompare]: swapping the arguments
    swaps the sign of the result, and "not after" is transitive. *)
Class ConsistentComparator {A : Type} (cmp : A → A → Z) : Prop := {
  cmp_sgn_swap : ∀ a b, Z.sgn (cmp b a) = - Z.sgn (cmp a b);
  cmp_le_trans : ∀ a b c, cmp a b ≤ 0 → cmp b c ≤ 0 → cmp a c ≤ 0
}.

(** [Contains s needle]: [needle] is a contiguous substring of [s]. *)
Definition Contains (s needle : string) : Prop :=
  ∃ pre post : string, s = pre +:+ needle +:+ post.

(** ** Effects of a fetch: component state and thrown errors *)

(** What a [catch] clause can receive: an error raised by axios, with its
    [code] ("ERR_NETWORK", "ECONNABORTED" for a timeout, "ERR_BAD_RESPONSE",
    ...), or any other thrown value. *)
Inductive Thrown :=
  | AxiosError (code : option string)
  | OtherError (message : string).

(** [axios.isAxiosError(err)] and [err.code]. *)
Definition isAxiosError (err : Thrown) : bool :=
  match err with AxiosError _ => true | OtherError _ => false end.

Definition errorCode (err : Thrown) : option string :=
  match err with AxiosError code => code | OtherError _ => None end.

(** The promise of [axios.get<T>(..)], once settled: fulfilled with a body
    of the declared type [T], or rejected with an error.  A body that is not
    JSON does not reject the promise: axios fulfils it with the raw text,
    which is no value of [T] and lies outside this embedding. *)
Inductive Settled (T : Type) :=
  | Fulfilled (data : T)
  | Rejected (err : Thrown).
Arguments Fulfilled {T} data.
Arguments Rejected {T} err.

(** A computation over the component state [S] that completes with a value
    or with a thrown error; state updates made before a throw stay. *)
Definition Eff (S A : Type) : Type := S → (Thrown + A) * S.

Module Eff.

Definition ret {S A} (a : A) : Eff S A := λ s, (inr a, s).

Definition throw {S A} (err : Thrown) : Eff S A := λ s, (inl err, s).

Definition bind {S A B} (m : Eff S A) (k : A → Eff S B) : Eff S B :=
  λ s, match m s with
       | (inr a, s') => k a s'
       | (inl err, s') => (inl err, s')
       end.

(** [await p]: the value of a fulfilled promise, the error of a rejected
    one thrown. *)
Definition await {S T} (p : Settled T) : Eff S T :=
  match p with
  | Fulfilled data => ret data
  | Rejected err => throw err
  end.

(** [try { body } catch (err) { handler }]. *)
Definition tryCatch {S A} (body : Eff S A) (handler : Thrown → Eff S A) : Eff S A :=
  λ s, match body s with
       | (inr a, s') => (inr a, s')
       | (inl err, s') => handler err s'
       end.

(** [try { body } finally { finalizer }]. *)
Definition tryFinally {S A} (body : Eff S A) (finalizer : Eff S unit) : Eff S A :=
  λ s, match body s with
       | (r, s') =>
           match finalizer s' with
           | (inr _, s'') => (r, s'')
           | (inl err, s'') => (inl err, s'')
           end
       end.

End Eff.

#[global] Instance Eff_ret {S} : MRet (Eff S) := λ A, Eff.ret.
#[global] Instance Eff_bind {S} : MBind (Eff S) := λ A B k m, Eff.bind m k.

(** ** Severity classification *)

(** The three display categories of the classifier. *)
Inductive SeverityCategory := CatHigh | CatMedium | CatLow.

(** The classification rule, on the lowercase form of the text: a first
    match on "high"/"critical", then on "medium"/"moderate", else low. *)
Inductive SeverityRule (l : string) : SeverityCategory → Prop :=
  | rule_high :
      Contains l "high" ∨ Contains l "critical" →
      SeverityRule l CatHigh
  | rule_medium :
      ¬ (Contains l "high" ∨ Contains l "critical") →
      Contains l "medium" ∨ Contains l "moderate" →
      SeverityRule l CatMedium
  | rule_low :
      ¬ (Contains l "high" ∨ Contains l "critical") →
      ¬ (Contains l "medium" ∨ Contains l "moderate") →
      SeverityRule l CatLow.

Module Dashboard.

(** [getRiskColor] (Dashboard.tsx). *)
Definition getRiskColor (level : string) : string :=
  let lowerLevel := JS.toLowerCase level in
  if JS.includes lowerLevel "high" || JS.includes lowerLevel "critical" then
    "border-red-500 bg-red-500/10 text-red-400"
  else if JS.includes lowerLevel "medium" || JS.includes lowerLevel "moderate" then
    "border-orange-500 bg-orange-500/10 text-orange-400"
  else
    "border-green-500 bg-green-500/10 text-green-400".

(** [getRiskBadgeColor] (Dashboard.tsx). *)
Definition getRiskBadgeColor (level : string) : string :=
  let lowerLevel := JS.toLowerCase level in
  if JS.includes lowerLevel "high" || JS.includes lowerLevel "critical" then
    "bg-red-500/20 text-red-400 border-red-500/30"
  else if JS.includes lowerLevel "medium" || JS.includes lowerLevel "moderate" then
    "bg-orange-500/20 text-orange-400 border-orange-500/30"
  else
    "bg-green-500/20 text-green-400 border-green-500/30".

(** The card class each category is drawn with. *)
Definition riskColorOf (c : SeverityCategory) : string :=
  match c with
  | CatHigh => "border-red-500 bg-red-500/10 text-red-400"
  | CatMedium => "border-orange-500 bg-orange-500/10 text-orange-400"
  | CatLow => "border-green-500 bg-green-500/10 text-green-400"
  end.

(** The badge class each category is drawn with. *)
Definition riskBadgeColorOf (c : SeverityCategory) : string :=
  match c with
  | CatHigh => "bg-red-500/20 text-red-400 border-red-500/30"
  | CatMedium => "bg-orange-500/20 text-orange-400 border-orange-500/30"
  | CatLow => "bg-green-500/20 text-green-400 border-green-500/30"
  end.

(** The record decoded from [GET /detect]. *)
Record HazardDetection := {
  type : string;
  risk_level : string;
  location : string;
  timestamp : string;
  confidence : option Z
}.

(** The three [useState] cells of the component. *)
Record State := {
  hazard : option HazardDetection;
  loading : bool;
  error : option string
}.

Definition initialState : State :=
  {| hazard := None; loading := true; error := None |}.

Definition setHazard (v : option HazardDetection) : Eff State unit :=
  λ s, (inr tt, {| hazard := v; loading := loading s; error := error s |}).

Definition setLoading (v : bool) : Eff State unit :=
  λ s, (inr tt, {| hazard := hazard s; loading := v; error := error s |}).

Definition setError (v : option string) : Eff State unit :=
  λ s, (inr tt, {| hazard := hazard s; loading := loading s; error := v |}).

(** [fetchData]; [now] is the time [new Date()] reads in the catch clause and
    [response] the settled [axios.get] on [/detect]. *)
Definition fetchData (now : Z) (response : Settled HazardDetection)
    : Eff State unit :=
  Eff.tryFinally
    (Eff.tryCatch
       (data ← Eff.await response;
        setHazard (Some data);;
        setError None)
       (λ err,
          setHazard (Some {| type := "Smoke Detected";
                             risk_level := "High";
                             location := "Module A-12";
                             timestamp := JS.toISOString now;
                             confidence := Some 92 |});;
          if isAxiosError err && bool_decide (errorCode err = Some "ERR_NETWORK")
          then setError None
          else Eff.ret tt))
    (setLoading false).

(** The component state after the polls [polls] have completed, one after
    the other, each with its clock reading and its settled request. *)
Definition afterPolls (polls : list (Z * Settled HazardDetection)) : State :=
  foldl (λ s poll, (fetchData poll.1 poll.2 s).2) initialState polls.

(** *** Rendering *)

(** The rendered tree: text nodes and elements with their class and style. *)
#[warnings="-register-all"] Inductive Node :=
  | Text (s : string)
  | Element (tag className : string) (style : option string)
      (children : list Node).

(** The values a JSX expression container holds in this component. *)
Inductive JSValue :=
  | VUndefined
  | VNumber (n : Z)
  | VString (s : string)
  | VElement (e : Node).

(** JavaScript truthiness: [undefined], [0] and [""] are falsy. *)
Definition truthy (v : JSValue) : bool :=
  match v with
  | VUndefined => false
  | VNumber n => negb (n =? 0)
  | VString s => negb (bool_decide (s = ""))
  | VElement _ => true
  end.

(** [a && b] and [a || b]. *)
Definition jsAnd (a b : JSValue) : JSValue := if truthy a then b else a.
Definition jsOr (a b : JSValue) : JSValue := if truthy a then a else b.

(** [String(v)] as a template literal prints it. *)
Definition toText (v : JSValue) : string :=
  match v with
  | VUndefined => "undefined"
  | VNumber n => JS.Number_toString n
  | VString s => s
  | VElement _ => "[object Object]"
  end.

(** What React draws for a child value: nothing for [undefined], the
    digits of a number, the characters of a string. *)
Definition renderChild (v : JSValue) : list Node :=
  match v with
  | VUndefined => []
  | VNumber n => [Text (JS.Number_toString n)]
  | VString s => [Text s]
  | VElement e => [e]
  end.

(** [hazard.confidence] and [hazard?.field]. *)
Definition confidenceOf (h : HazardDetection) : JSValue :=
  match confidence h with Some c => VNumber c | None => VUndefined end.

Definition optField (f : HazardDetection → string) (h : option HazardDetection)
    : JSValue :=
  match h with Some h => VString (f h) | None => VUndefined end.

(** The three summary cards. *)
Definition statusCard (h : option HazardDetection) : list Node :=
  renderChild (VString (match h with Some _ => "Detected" | None => "Clear" end)).

Definition riskLevelCard (h : option HazardDetection) : list Node :=
  renderChild (jsOr (optField risk_level h) (VString "Normal")).

Definition locationCard (h : option HazardDetection) : list Node :=
  renderChild (jsOr (optField location h) (VString "All Clear")).

(** The confidence bar and percentage of the detection card. *)
Definition confidenceBlock (c : JSValue) : Node :=
  Element "div" "" None
    [ Element "p" "text-sm text-gray-400 mb-1" None [Text "Confidence Level"];
      Element "div" "flex items-center gap-3" None
        [ Element "div" "flex-1 h-2 bg-gray-800 rounded-full overflow-hidden" None
            [ Element "div" "h-full bg-blue-500"
                (Some ("width: " +:+ toText c +:+ "%")) [] ];
          Element "span" "text-lg font-medium" None
            (renderChild c ++ [Text "%"]) ] ].

(** [{hazard.confidence && ( <div>...</div> )}]. *)
Definition confidenceSlot (h : HazardDetection) : list Node :=
  renderChild (jsAnd (confidenceOf h) (VElement (confidenceBlock (confidenceOf h)))).

(** What the component returns: the loading screen while [loading], else
    the page with the detection card or with the all-clear panel. *)
Inductive View :=
  | LoadingView
  | DetectionView (h : HazardDetection)
  | AllClearView.

Definition view (s : State) : View :=
  if loading s then LoadingView
  else match hazard s with
       | Some h => DetectionView h
       | None => AllClearView
       end.

End Dashboard.

Module SafetyResponsePanel.

(** [getSeverityColor], a closure over the [severity] prop. *)
Definition getSeverityColor (severity : string) : string :=
  let lowerSeverity := JS.toLowerCase severity in
  if JS.includes lowerSeverity "high" || JS.includes lowerSeverity "critical" then
    "border-red-500 bg-red-500/5"
  else if JS.includes lowerSeverity "medium" || JS.includes lowerSeverity "moderate" then
    "border-orange-500 bg-orange-500/5"
  else
    "border-yellow-500 bg-yellow-500/5".

(** The panel border each category is drawn with. *)
Definition severityColorOf (c : SeverityCategory) : string :=
  match c with
  | CatHigh => "border-red-500 bg-red-500/5"
  | CatMedium => "border-orange-500 bg-orange-500/5"
  | CatLow => "border-yellow-500 bg-yellow-500/5"
  end.

Definition fireActions : list string :=
  [ "Isolate affected module immediately";
    "Activate automatic fire suppression systems";
    "Alert all crew members via intercom";
    "Evacuate personnel from adjacent modules";
    "Seal ventilation to prevent spread";
    "Monitor oxygen levels in nearby areas" ].

Definition smokeActions : list string :=
  [ "Activate ventilation systems in affected area";
    "Alert crew members in vicinity";
    "Identify source of smoke emission";
    "Prepare fire suppression equipment";
    "Monitor air quality sensors";
    "Restrict access to affected zone" ].

Definition electricalActions : list string :=
  [ "Immediately cut power to affected circuit";
    "Evacuate personnel from danger zone";
    "Verify backup power systems are operational";
    "Deploy insulated equipment for inspection";
    "Monitor for secondary hazards";
    "Notify engineering team for assessment" ].

Definition gasActions : list string :=
  [ "Seal affected compartment immediately";
    "Activate emergency ventilation protocols";
    "Evacuate all personnel from area";
    "Deploy atmospheric sensors";
    "Use breathing apparatus for inspections";
    "Locate and isolate leak source" ].

Definition overheatActions : list string :=
  [ "Reduce power consumption in affected area";
    "Activate auxiliary cooling systems";
    "Monitor temperature trends continuously";
    "Check thermal protection systems";
    "Prepare for equipment shutdown if needed";
    "Document temperature readings" ].

Definition genericActions : list string :=
  [ "Assess the situation thoroughly";
    "Alert relevant crew members";
    "Follow standard safety protocols";
    "Document all observations";
    "Monitor system status closely" ].

(** [getSafetyActions]: the chain of [if (lowerType.includes(..))]. *)
Definition getSafetyActions (type : string) : list string :=
  let lowerType := JS.toLowerCase type in
  if JS.includes lowerType "fire" then fireActions
  else if JS.includes lowerType "smoke" then smokeActions
  else if JS.includes lowerType "electrical" || JS.includes lowerType "spark"
  then electricalActions
  else if JS.includes lowerType "gas" || JS.includes lowerType "leak"
  then gasActions
  else if JS.includes lowerType "overheat" || JS.includes lowerType "temperature"
  then overheatActions
  else genericActions.

(** The keyword categories in the order the specification lists them,
    each with its checklist. *)
Definition checklistTable : list (list string * list string) :=
  [ (["fire"], fireActions);
    (["smoke"], smokeActions);
    (["electrical"; "spark"], electricalActions);
    (["gas"; "leak"], gasActions);
    (["overheat"; "temperature"], overheatActions) ].

End SafetyResponsePanel.

(** ** Alert history: sort selection and sorting *)

(** The closed severity of an alert record: ["Low" | "Medium" | "High"]. *)
Inductive Severity := Low | Medium | High.

#[global] Instance Severity_eq_dec : EqDecision Severity.
Proof. solve_decision. Defined.

(** The string a severity is at run time. *)
Definition severityString (s : Severity) : string :=
  match s with Low => "Low" | Medium => "Medium" | High => "High" end.

Module AlertHistory.

Inductive Status := Resolved | Active.

Record HistoricalAlert := {
  id : string;
  type : string;
  severity : Severity;
  location : string;
  timestamp : string;
  status : Status
}.

Inductive SortField := ByTimestamp | BySeverity | ByType.
Inductive SortOrder := Asc | Desc.

#[global] Instance SortField_eq_dec : EqDecision SortField.
Proof. solve_decision. Defined.
#[global] Instance SortOrder_eq_dec : EqDecision SortOrder.
Proof. solve_decision. Defined.
#[global] Instance Status_eq_dec : EqDecision Status.
Proof. solve_decision. Defined.
#[global] Instance HistoricalAlert_eq_dec : EqDecision HistoricalAlert.
Proof. solve_decision. Defined.

(** The two [useState] cells of the component. *)
Record State := { sortField : SortField; sortOrder : SortOrder }.

(** [useState<SortField>("timestamp")], [useState<SortOrder>("desc")]. *)
Definition initialState : State :=
  {| sortField := ByTimestamp; sortOrder := Desc |}.

(** A call of one of the two state setters. *)
Inductive SetState :=
  | setSortField (f : SortField)
  | setSortOrder (o : SortOrder).

(** [handleSort]: the closure of one render reads that render's
    [sortField] and [sortOrder] and calls the setters. *)
Definition handleSort (rendered : State) (field : SortField) : list SetState :=
  if decide (sortField rendered = field) then
    [ setSortOrder (if decide (sortOrder rendered = Asc) then Desc else Asc) ]
  else
    [ setSortField field; setSortOrder Desc ].

Definition commit (s : State) (u : SetState) : State :=
  match u with
  | setSortField f => {| sortField := f; sortOrder := sortOrder s |}
  | setSortOrder o => {| sortField := sortField s; sortOrder := o |}
  end.

(** One click on a column header: the handler of the current render runs,
    React commits the queued updates and renders again. *)
Definition click (s : State) (field : SortField) : State :=
  foldl commit s (handleSort s field).

(** The mock historical data, rebuilt at every render; [clock k] is the
    value of the render's [k]-th call of [Date.now()]. *)
Definition alerts (clock : nat → Z) : list HistoricalAlert :=
  [ {| id := "1"; type := "Smoke Detected"; severity := High;
       location := "Module A-12";
       timestamp := JS.toISOString (clock 0%nat - 7200000); status := Resolved |};
    {| id := "2"; type := "Fire Detected"; severity := High;
       location := "Research Lab 2";
       timestamp := JS.toISOString (clock 1%nat - 14400000); status := Resolved |};
    {| id := "3"; type := "Electrical Fault"; severity := Medium;
       location := "Solar Array 3";
       timestamp := JS.toISOString (clock 2%nat - 21600000); status := Resolved |};
    {| id := "4"; type := "Gas Leak"; severity := High;
       location := "Docking Port 1";
       timestamp := JS.toISOString (clock 3%nat - 28800000); status := Resolved |};
    {| id := "5"; type := "Overheating"; severity := Low;
       location := "Equipment Bay";
       timestamp := JS.toISOString (clock 4%nat - 43200000); status := Resolved |};
    {| id := "6"; type := "Electrical Fault"; severity := Medium;
       location := "Module B-7";
       timestamp := JS.toISOString (clock 5%nat - 86400000); status := Resolved |} ].

(** [const severityOrder = { High: 3, Medium: 2, Low: 1 }]. *)
Definition severityOrder (s : Severity) : Z :=
  match s with High => 3 | Medium => 2 | Low => 1 end.

Section Sorting.
(** [new Date(ts).getTime()] and [a.localeCompare(b)], both supplied by
    the JavaScript runtime.  The time value is a number of milliseconds:
    the timestamps of the history are printed by [toISOString], so the
    [NaN] of an unreadable date string does not arise. *)
Context (getTime : string → Z) (localeCompare : string → string → Z).

(** [compareValue] of the comparator passed to [sort]. *)
Definition compareValue (field : SortField) (a b : HistoricalAlert) : Z :=
  match field with
  | ByTimestamp => getTime (timestamp a) - getTime (timestamp b)
  | BySeverity => severityOrder (severity a) - severityOrder (severity b)
  | ByType => localeCompare (type a) (type b)
  end.

(** The comparator: [sortOrder === "asc" ? compareValue : -compareValue]. *)
Definition comparator (s : State) (a b : HistoricalAlert) : Z :=
  let compareValue := compareValue (sortField s) a b in
  if decide (sortOrder s = Asc) then compareValue else - compareValue.

(** Arrays live in a store and are passed by reference. *)
Definition spread (h : gmap nat (list HistoricalAlert)) (arr : nat)
    : gmap nat (list HistoricalAlert) * nat :=
  let copy := fresh (dom h) in
  (<[copy := default [] (h !! arr)]> h, copy).

(** [arr.sort(comparefn)] sorts [arr] in place and returns [arr]. *)
Definition sortInPlace (cmp : HistoricalAlert → HistoricalAlert → Z)
    (h : gmap nat (list HistoricalAlert)) (arr : nat)
    : gmap nat (list HistoricalAlert) * nat :=
  (alter (JS.Array_sort cmp) arr h, arr).

(** [const sortedAlerts = [...alerts].sort((a, b) => ...)]. *)
Definition sortedAlerts (s : State) (h : gmap nat (list HistoricalAlert))
    (alerts : nat) : gmap nat (list HistoricalAlert) * nat :=
  let '(h1, copy) := spread h alerts in
  sortInPlace (comparator s) h1 copy.

(** The contents of [sortedAlerts] for an [alerts] array holding [l]. *)
Definition sorted (s : State) (l : list HistoricalAlert) : list HistoricalAlert :=
  JS.Array_sort (comparator s) l.
End Sorting.

(** [getSeverityColor]: a [switch] on the severity string. *)
Definition getSeverityColor (severity : string) : string :=
  if bool_decide (severity = "High") then "text-red-400"
  else if bool_decide (severity = "Medium") then "text-orange-400"
  else "text-green-400".

Inductive Icon := ChevronUp | ChevronDown.

(** [SortIcon]: [null] on the columns that are not the sort field. *)
Definition SortIcon (s : State) (field : SortField) : option Icon :=
  if decide (sortField s ≠ field) then None
  else if decide (sortOrder s = Asc) then Some ChevronUp else Some ChevronDown.

End AlertHistory.

(** ** Active alerts: polling with fallback *)

Module HazardAlerts.

(** A record decoded from [GET /alerts]. *)
Record Alert := {
  id : string;
  type : string;
  severity : Severity;
  location : string;
  timestamp : string;
  description : option string
}.

(** The two [useState] cells of the component. *)
Record State := { alerts : list Alert; loading : bool }.

Definition initialState : State := {| alerts := []; loading := true |}.

Definition setAlerts (v : list Alert) : Eff State unit :=
  λ s, (inr tt, {| alerts := v; loading := loading s |}).

Definition setLoading (v : bool) : Eff State unit :=
  λ s, (inr tt, {| alerts := alerts s; loading := v |}).

(** The mock data of the catch clause; [clock k] is the value of its
    [k]-th call of [Date.now()]. *)
Definition fallbackAlerts (clock : nat → Z) : list Alert :=
  [ {| id := "1"; type := "Smoke Detected"; severity := High;
       location := "Module A-12";
       timestamp := JS.toISOString (clock 0%nat - 120000);
       description := Some "Dense smoke detected in corridor section" |};
    {| id := "2"; type := "Electrical Fault"; severity := Medium;
       location := "Solar Array 3";
       timestamp := JS.toISOString (clock 1%nat - 300000);
       description := Some "Abnormal electrical discharge observed" |};
    {| id := "3"; type := "Temperature Spike"; severity := Low;
       location := "Life Support Bay";
       timestamp := JS.toISOString (clock 2%nat - 600000);
       description := Some "Minor temperature fluctuation recorded" |};
    {| id := "4"; type := "Fire Detected"; severity := High;
       location := "Research Lab 2";
       timestamp := JS.toISOString (clock 3%nat - 900000);
       description := Some "Active fire detected by visual monitoring" |} ].

(** [fetchAlerts]; [response] is the settled [axios.get] on [/alerts]. *)
Definition fetchAlerts (clock : nat → Z) (response : Settled (list Alert))
    : Eff State unit :=
  Eff.tryFinally
    (Eff.tryCatch
       (data ← Eff.await response;
        setAlerts data)
       (λ err, setAlerts (fallbackAlerts clock)))
    (setLoading false).

(** An alert without its timestamp. *)
Definition fixedPart (a : Alert)
    : string * string * Severity * string * option string :=
  (id a, type a, severity a, location a, description a).

(** [getSeverityColor] and [getSeverityBadge]: a [switch] on the severity
    string. *)
Definition getSeverityColor (severity : string) : string :=
  if bool_decide (severity = "High") then
    "border-red-500 bg-red-500/10 text-red-400"
  else if bool_decide (severity = "Medium") then
    "border-orange-500 bg-orange-500/10 text-orange-400"
  else
    "border-green-500 bg-green-500/10 text-green-400".

Definition getSeverityBadge (severity : string) : string :=
  if bool_decide (severity = "High") then
    "bg-red-500/20 text-red-400 border-red-500/30"
  else if bool_decide (severity = "Medium") then
    "bg-orange-500/20 text-orange-400 border-orange-500/30"
  else
    "bg-green-500/20 text-green-400 border-green-500/30".

Section Rendering.
(** [new Date(ts).getTime()] and [date.toLocaleDateString()], supplied by
    the JavaScript runtime; time values are integral milliseconds. *)
Context (getTime : string → Z) (toLocaleDateString : Z → string).

(** [getTimeAgo]; [now] is the time [new Date()] reads. *)
Definition getTimeAgo (now : Z) (timestamp : string) : string :=
  let diffMs := now - getTime timestamp in
  let diffMins := diffMs / 60000 in
  if diffMins <? 1 then "Just now"
  else if diffMins <? 60 then JS.Number_toString diffMins +:+ "m ago"
  else
    let diffHours := diffMins / 60 in
    if diffHours <? 24 then JS.Number_toString diffHours +:+ "h ago"
    else toLocaleDateString (getTime timestamp).

(** The header count: [{alerts.length} active alert{.. !== 1 ? 's' : ''}]. *)
Definition countLabel (alerts : list Alert) : string :=
  JS.Number_toString (Z.of_nat (length alerts)) +:+ " active alert" +:+
  (if bool_decide (length alerts ≠ 1%nat) then "s" else "").

(** What one alert is drawn with, its optional description line apart. *)
Record Card := {
  cardKey : string;
  cardClass : string;
  cardTitle : string;
  badgeClass : string;
  badgeText : string;
  cardLocation : string;
  cardTime : string
}.

Definition card (now : Z) (alert : Alert) : Card :=
  {| cardKey := id alert;
     cardClass := getSeverityColor (severityString (severity alert));
     cardTitle := type alert;
     badgeClass := getSeverityBadge (severityString (severity alert));
     badgeText := severityString (severity alert);
     cardLocation := location alert;
     cardTime := getTimeAgo now (timestamp alert) |}.

(** What the component returns: the loading screen while [loading], else
    the header count with the "No Active Alerts" panel for an empty list
    ([None]) or one card per alert; [clock k] is the time the [k]-th card
    reads. *)
Inductive View :=
  | LoadingView
  | AlertsView (count : string) (cards : option (list Card)).

Definition view (clock : nat → Z) (s : State) : View :=
  if loading s then LoadingView
  else AlertsView (countLabel (alerts s))
         (if bool_decide (length (alerts s) = 0%nat) then None
          else Some (imap (λ k alert, card (clock k) alert) (alerts s))).
End Rendering.

(** The component state after the polls [polls] have completed, one after
    the other, each with its clock and its settled request. *)
Definition afterPolls (polls : list ((nat → Z) * Settled (list Alert))) : State :=
  foldl (λ s poll, (fetchAlerts poll.1 poll.2 s).2) initialState polls.

End HazardAlerts.

(** ** Navigation *)

Module App.

Inductive Page :=
  | DashboardPage
  | LiveMonitoringPage
  | HazardAlertsPage
  | AlertHistoryPage
  | SystemOverviewPage.

(** [renderPage]: the [switch] on [currentPage], the dashboard by default. *)
Definition renderPage (currentPage : string) : Page :=
  if bool_decide (currentPage = "dashboard") then DashboardPage
  else if bool_decide (currentPage = "live") then LiveMonitoringPage
  else if bool_decide (currentPage = "alerts") then HazardAlertsPage
  else if bool_decide (currentPage = "history") then AlertHistoryPage
  else if bool_decide (currentPage = "system") then SystemOverviewPage
  else DashboardPage.

(** [useState("dashboard")]. *)
Definition initialPage : string := "dashboard".

End App.

Module Layout.

(** [navItems]: the id and the label of each entry. *)
Definition navItems : list (string * string) :=
  [ ("dashboard", "Dashboard");
    ("live", "Live Monitoring");
    ("alerts", "Hazard Alerts");
    ("history", "Alert History");
    ("system", "System Overview") ].

(** [const isActive = currentPage === item.id]. *)
Definition isActive (currentPage : string) (item : string * string) : bool :=
  bool_decide (currentPage = item.1).

(** The page of [App] and the sidebar flag of [Layout]. *)
Record State := { currentPage : string; sidebarOpen : bool }.

Definition initialState : State :=
  {| currentPage := App.initialPage; sidebarOpen := true |}.

(** A click on a navigation entry, in a window [innerWidth] wide:
    [onNavigate(item.id); if (window.innerWidth < 1024) setSidebarOpen(false)]. *)
Definition navigate (s : State) (click : Z * (string * string)) : State :=
  {| currentPage := click.2.1;
     sidebarOpen := if click.1 <? 1024 then false else sidebarOpen s |}.

(** A click on the menu button: [setSidebarOpen(!sidebarOpen)]. *)
Definition toggleSidebar (s : State) : State :=
  {| currentPage := currentPage s; sidebarOpen := negb (sidebarOpen s) |}.

End Layout.

(** ** Live monitoring: the detection timer *)

Module LiveMonitoring.

Inductive Scenario := smoke | fire | electrical.

#[global] Instance Scenario_eq_dec : EqDecision Scenario.
Proof. solve_decision. Defined.

Definition scenarioId (sc : Scenario) : string :=
  match sc with smoke => "smoke" | fire => "fire" | electrical => "electrical" end.

(** The three [useState] cells, and the timeouts of the window: [timers]
    holds the ids set and neither fired nor cleared, [timer] is the
    [const timer] the cleanup of the effect in place closes over, and
    [nextTimer] the id the next [setTimeout] returns. *)
Record State := {
  mounted : bool;
  selectedScenario : Scenario;
  capturedFrame : option string;
  isDetecting : bool;
  timers : gset nat;
  timer : option nat;
  nextTimer : nat
}.

(** The effect on [selectedScenario]: [setIsDetecting(true)] and a timeout
    of 2000 ms. *)
Definition effect (s : State) : State :=
  {| mounted := mounted s;
     selectedScenario := selectedScenario s;
     capturedFrame := capturedFrame s;
     isDetecting := true;
     timers := {[ nextTimer s ]} ∪ timers s;
     timer := Some (nextTimer s);
     nextTimer := S (nextTimer s) |}.

(** Its cleanup: [clearTimeout(timer)]. *)
Definition cleanup (s : State) : State :=
  {| mounted := mounted s;
     selectedScenario := selectedScenario s;
     capturedFrame := capturedFrame s;
     isDetecting := isDetecting s;
     timers := match timer s with
               | Some t => timers s ∖ {[ t ]}
               | None => timers s
               end;
     timer := timer s;
     nextTimer := nextTimer s |}.

(** The component once mounted: the first render and its effect. *)
Definition mount : State :=
  effect {| mounted := true; selectedScenario := smoke; capturedFrame := None;
            isDetecting := false; timers := ∅; timer := None;
            nextTimer := 0 |}.

(** What happens to the mounted component: a click on a scenario button,
    the timeout [t] firing ([frame] is the data URL [captureFrame] draws,
    [None] when the video element or the canvas context is missing), and
    the component being unmounted. *)
Inductive Event :=
  | Select (sc : Scenario)
  | Fire (t : nat) (frame : option string)
  | Unmount.

(** Clicks reach the component only while it is mounted; a timeout that is
    still set fires whether it is or not. *)
Definition step (s : State) (e : Event) : State :=
  match e with
  | Select sc =>
      if mounted s && negb (bool_decide (sc = selectedScenario s)) then
        effect (cleanup {| mounted := mounted s;
                           selectedScenario := sc;
                           capturedFrame := capturedFrame s;
                           isDetecting := isDetecting s;
                           timers := timers s;
                           timer := timer s;
                           nextTimer := nextTimer s |})
      else s
  | Fire t frame =>
      if decide (t ∈ timers s) then
        {| mounted := mounted s;
           selectedScenario := selectedScenario s;
           capturedFrame := match frame with
                            | Some dataURL => Some dataURL
                            | None => capturedFrame s
                            end;
           isDetecting := false;
           timers := timers s ∖ {[ t ]};
           timer := timer s;
           nextTimer := nextTimer s |}
      else s
  | Unmount =>
      if mounted s then
        cleanup {| mounted := false;
                   selectedScenario := selectedScenario s;
                   capturedFrame := capturedFrame s;
                   isDetecting := isDetecting s;
                   timers := timers s;
                   timer := timer s;
                   nextTimer := nextTimer s |}
      else s
  end.

Definition run (events : list Event) : State := foldl step mount events.

(** The bookkeeping of the timeouts: the effect in place has set one, and
    the timeouts still set are that one while the mounted component is
    detecting, none otherwise. *)
Definition timersTracked (s : State) : Prop :=
  ∃ t, timer s = Some t
       ∧ (t < nextTimer s)%nat
       ∧ timers s = if mounted s && isDetecting s then {[ t ]} else ∅.

(** The overlay of the feed: [LIVE FEED - {selectedScenario.toUpperCase()}]. *)
Definition liveFeedLabel (s : State) : string :=
  "LIVE FEED - " +:+ JS.toUpperCase (scenarioId (selectedScenario s)).

End LiveMonitoring.

(** First-match-wins over a keyword table: the checklist of the first row
    one of whose keywords occurs in [l], and [fallback] when no row has. *)
Inductive FirstMatch (l : string) (fallback : list string) :
    list (list string * list string) → list string → Prop :=
  | first_none : FirstMatch l fallback [] fallback
  | first_hit kws acts rest :
      Exists (Contains l) kws →
      FirstMatch l fallback ((kws, acts) :: rest) acts
  | first_skip kws acts rest r :
      ¬ Exists (Contains l) kws →
      FirstMatch l fallback rest r →
      FirstMatch l fallback ((kws, acts) :: rest) r.

(** ** String search *)

Section StringSearch.

Lemma append_cons c (s t : string) : String c s +:+ t = String c (s +:+ t).
Proof. reflexivity. Qed.

Lemma startsWith_spec s needle :
  JS.startsWith s needle = true ↔ ∃ post, s = needle +:+ post.
Proof.
  revert s. induction needle as [|a needle IH]; intros s; simpl.
  - split; [intros _; exists s; reflexivity | done].
  - destruct s as [|b s].
    + split; [done | intros [post Hp]; discriminate].
    + setoid_rewrite append_cons.
      destruct (Ascii.eqb_spec a b) as [->|Hne].
      * rewrite IH. split.
        -- intros [post ->]. by exists post.
        -- intros [post Hp]. injection Hp as ->. by exists post.
      * split; [done | intros [post Hp]; congruence].
Qed.

Lemma includes_spec s needle :
  JS.includes s needle = true ↔ Contains s needle.
Proof.
  unfold Contains. induction s as [|c s IH]; simpl.
  - rewrite orb_false_r, startsWith_spec. split.
    + intros [post Hp]. by exists EmptyString, post.
    + intros [pre [post Hp]]. destruct pre; [by exists post | discriminate].
  - rewrite orb_true_iff, startsWith_spec, IH. split.
    + intros [[post Hp] | [pre [post Hp]]].
      * by exists EmptyString, post.
      * exists (String c pre), post. by rewrite append_cons, Hp.
    + intros [pre [post Hp]]. destruct pre as [|c' pre].
      * left. by exists post.
      * right. rewrite append_cons in Hp. injection Hp as -> ->.
        by exists pre, post.
Qed.

Lemma includes_false s needle :
  JS.includes s needle = false ↔ ¬ Contains s needle.
Proof. rewrite <- includes_spec. by destruct (JS.includes s needle). Qed.

Lemma includes_either s n1 n2 :
  JS.includes s n1 || JS.includes s n2 = true ↔ Contains s n1 ∨ Contains s n2.
Proof. by rewrite orb_true_iff, !includes_spec. Qed.

Lemma includes_neither s n1 n2 :
  JS.includes s n1 || JS.includes s n2 = false ↔
  ¬ (Contains s n1 ∨ Contains s n2).
Proof.
  rewrite <- includes_either. by destruct (JS.includes s n1 || JS.includes s n2).
Qed.

End StringSearch.

(** ** The severity classifier *)

Lemma SeverityRule_functional l c1 c2 :
  SeverityRule l c1 → SeverityRule l c2 → c1 = c2.
Proof. by intros [] []. Qed.

(** The category the three colour functions agree on. *)
Lemma severity_classified level :
  ∃ c, SeverityRule (JS.toLowerCase level) c
       ∧ Dashboard.getRiskColor level = Dashboard.riskColorOf c
       ∧ Dashboard.getRiskBadgeColor level = Dashboard.riskBadgeColorOf c
       ∧ SafetyResponsePanel.getSeverityColor level
         = SafetyResponsePanel.severityColorOf c.
Proof.
  unfold Dashboard.getRiskColor, Dashboard.getRiskBadgeColor,
    SafetyResponsePanel.getSeverityColor.
  set (l := JS.toLowerCase level).
  destruct (JS.includes l "high" || JS.includes l "critical") eqn:Hh.
  { exists CatHigh. split; [|done]. apply rule_high. by apply includes_either. }
  apply includes_neither in Hh.
  destruct (JS.includes l "medium" || JS.includes l "moderate") eqn:Hm.
  { exists CatMedium. split; [|done]. apply rule_medium; [done|].
    by apply includes_either. }
  apply includes_neither in Hm.
  exists CatLow. split; [|done]. by apply rule_low.
Qed.

(** C1. The severity classifier is total: every string falls in exactly one
    of High, Medium, Low, decided on its lowercase form by the occurrence of
    "high"/"critical", then "medium"/"moderate", else Low, and the colour
    functions of the dashboard and of the safety panel draw that category;
    "HIGH risk", "High-Critical" and "critical" are High, "moderate concern"
    is Medium and "nominal" is Low. *)
Theorem severityCategory_total :
  (∀ level : string,
     ∃ c, SeverityRule (JS.toLowerCase level) c
          ∧ (∀ c', SeverityRule (JS.toLowerCase level) c' ↔ c' = c)
          ∧ Dashboard.getRiskColor level = Dashboard.riskColorOf c
          ∧ Dashboard.getRiskBadgeColor level = Dashboard.riskBadgeColorOf c
          ∧ SafetyResponsePanel.getSeverityColor level
            = SafetyResponsePanel.severityColorOf c)
  ∧ Inj (=) (=) Dashboard.riskColorOf
  ∧ Inj (=) (=) SafetyResponsePanel.severityColorOf
  ∧ Dashboard.getRiskColor "HIGH risk" = Dashboard.riskColorOf CatHigh
  ∧ Dashboard.getRiskColor "High-Critical" = Dashboard.riskColorOf CatHigh
  ∧ Dashboard.getRiskColor "critical" = Dashboard.riskColorOf CatHigh
  ∧ Dashboard.getRiskColor "moderate concern" = Dashboard.riskColorOf CatMedium
  ∧ Dashboard.getRiskColor "nominal" = Dashboard.riskColorOf CatLow
  ∧ SafetyResponsePanel.getSeverityColor "HIGH risk"
    = SafetyResponsePanel.severityColorOf CatHigh
  ∧ SafetyResponsePanel.getSeverityColor "High-Critical"
    = SafetyResponsePanel.severityColorOf CatHigh
  ∧ SafetyResponsePanel.getSeverityColor "critical"
    = SafetyResponsePanel.severityColorOf CatHigh
  ∧ SafetyResponsePanel.getSeverityColor "moderate concern"
    = SafetyResponsePanel.severityColorOf CatMedium
  ∧ SafetyResponsePanel.getSeverityColor "nominal"
    = SafetyResponsePanel.severityColorOf CatLow.
Proof.
  split.
  { intros level. destruct (severity_classified level) as (c & Hc & Hrest).
    exists c. split; [done|]. split; [|done].
    intros c'. split; [|by intros ->].
    intros Hc'. by apply (SeverityRule_functional _ _ _ Hc' Hc). }
  split. { by intros [] [] Heq. }
  split. { by intros [] [] Heq. }
  by vm_compute.
Qed.

(** ** The safety checklist *)

Lemma FirstMatch_functional l fallback table r1 r2 :
  FirstMatch l fallback table r1 → FirstMatch l fallback table r2 → r1 = r2.
Proof.
  intros H1. revert r2.
  induction H1 as [|kws acts rest Hhit|kws acts rest r Hmiss H1 IH];
    intros r2 H2; inversion H2; subst; try done.
  by apply IH.
Qed.

(** C2. [getSafetyActions] evaluates the keyword categories fire, smoke,
    electrical/spark, gas/leak, overheat/temperature in that order on the
    lowercase form of the hazard type, the first category with a keyword
    occurring in it wins and its fixed checklist of 5 to 6 actions is
    returned; "Fire and Smoke Detected" gets the fire checklist, and a type
    matching no category gets the generic 5-step checklist. *)
Theorem getSafetyActions_first_match :
  (∀ type : string,
     FirstMatch (JS.toLowerCase type) SafetyResponsePanel.genericActions
       SafetyResponsePanel.checklistTable
       (SafetyResponsePanel.getSafetyActions type))
  ∧ (∀ (type : string) (actions : list string),
       FirstMatch (JS.toLowerCase type) SafetyResponsePanel.genericActions
         SafetyResponsePanel.checklistTable actions
       ↔ actions = SafetyResponsePanel.getSafetyActions type)
  ∧ Forall (λ row, 5 ≤ length row.2 ≤ 6)%nat SafetyResponsePanel.checklistTable
  ∧ length SafetyResponsePanel.genericActions = 5%nat
  ∧ Contains (JS.toLowerCase "Fire and Smoke Detected") "fire"
  ∧ Contains (JS.toLowerCase "Fire and Smoke Detected") "smoke"
  ∧ SafetyResponsePanel.getSafetyActions "Fire and Smoke Detected"
    = SafetyResponsePanel.fireActions
  ∧ SafetyResponsePanel.fireActions ≠ SafetyResponsePanel.smokeActions
  ∧ SafetyResponsePanel.getSafetyActions "Hull breach"
    = SafetyResponsePanel.genericActions.
Proof.
  assert (∀ type : string,
            FirstMatch (JS.toLowerCase type) SafetyResponsePanel.genericActions
              SafetyResponsePanel.checklistTable
              (SafetyResponsePanel.getSafetyActions type)) as Hfirst.
  { intros type. unfold SafetyResponsePanel.getSafetyActions,
      SafetyResponsePanel.checklistTable.
    set (l := JS.toLowerCase type).
    destruct (JS.includes l "fire") eqn:H1.
    { apply first_hit, Exists_cons_hd. by apply includes_spec. }
    apply includes_false in H1.
    apply first_skip; [rewrite Exists_cons, Exists_nil; tauto|].
    destruct (JS.includes l "smoke") eqn:H2.
    { apply first_hit, Exists_cons_hd. by apply includes_spec. }
    apply includes_false in H2.
    apply first_skip; [rewrite Exists_cons, Exists_nil; tauto|].
    destruct (JS.includes l "electrical" || JS.includes l "spark") eqn:H3.
    { apply first_hit. apply includes_either in H3.
      rewrite !Exists_cons. tauto. }
    apply includes_neither in H3.
    apply first_skip; [rewrite !Exists_cons, Exists_nil; tauto|].
    destruct (JS.includes l "gas" || JS.includes l "leak") eqn:H4.
    { apply first_hit. apply includes_either in H4.
      rewrite !Exists_cons. tauto. }
    apply includes_neither in H4.
    apply first_skip; [rewrite !Exists_cons, Exists_nil; tauto|].
    destruct (JS.includes l "overheat" || JS.includes l "temperature") eqn:H5.
    { apply first_hit. apply includes_either in H5.
      rewrite !Exists_cons. tauto. }
    apply includes_neither in H5.
    apply first_skip; [rewrite !Exists_cons, Exists_nil; tauto|].
    apply first_none. }
  split; [exact Hfirst|].
  split.
  { intros type actions. split; [|intros ->; apply Hfirst].
    intros H. exact (FirstMatch_functional _ _ _ _ _ H (Hfirst type)). }
  split. { repeat constructor. }
  split; [done|].
  split. { apply includes_spec. by vm_compute. }
  split. { apply includes_spec. by vm_compute. }
  split; [by vm_compute|].
  split; [discriminate|].
  by vm_compute.
Qed.


(** ** Dates *)

Example toISOString_epoch : JS.toISOString 0 = "1970-01-01T00:00:00.000Z".
Proof. reflexivity. Qed.

Example toISOString_before_epoch :
  JS.toISOString (-1) = "1969-12-31T23:59:59.999Z".
Proof. reflexivity. Qed.

Example toISOString_leap_day :
  JS.toISOString 951782400000 = "2000-02-29T00:00:00.000Z".
Proof. reflexivity. Qed.

Example toISOString_2023 :
  JS.toISOString 1700000000000 = "2023-11-14T22:13:20.000Z".
Proof. reflexivity. Qed.

Example getTimeISO_2023 :
  JS.getTimeISO "2023-11-14T22:13:20.000Z" = 1700000000000.
Proof. reflexivity. Qed.

Example Number_toString_92 : JS.Number_toString 92 = "92".
Proof. reflexivity. Qed.

(** ** Stable sorting with a consistent comparator *)

Lemma sgn_swap_le x y :
  Z.sgn x = - Z.sgn y → (x ≤ 0 ↔ 0 ≤ y) ∧ (x = 0 ↔ y = 0).
Proof. destruct x, y; simpl; lia. Qed.

Section ArraySortFacts.
Context {A : Type} (cmp : A → A → Z) `{!ConsistentComparator cmp}.

Lemma cmp_refl a : cmp a a = 0.
Proof. pose proof (cmp_sgn_swap a a) as H. destruct (cmp a a); simpl in H; lia. Qed.

Lemma cmp_swap_le a b : cmp a b ≤ 0 ↔ 0 ≤ cmp b a.
Proof. apply sgn_swap_le, cmp_sgn_swap. Qed.

Lemma cmp_swap_zero a b : cmp a b = 0 ↔ cmp b a = 0.
Proof. apply sgn_swap_le, cmp_sgn_swap. Qed.

Lemma cmp_after_swap a b : ¬ cmp a b ≤ 0 → cmp b a ≤ 0.
Proof. intros H. apply cmp_swap_le. lia. Qed.

(** Records with the key of [x] have the same key. *)
Lemma cmp_zero_trans x a b : cmp x a = 0 → cmp x b = 0 → cmp a b = 0.
Proof.
  intros Ha Hb.
  assert (cmp a b ≤ 0).
  { apply (cmp_le_trans a x b); [apply cmp_swap_zero in Ha|]; lia. }
  assert (cmp b a ≤ 0) as Hba.
  { apply (cmp_le_trans b x a); [apply cmp_swap_zero in Hb|]; lia. }
  apply cmp_swap_le in Hba. lia.
Qed.

Lemma sortInsert_perm x l : JS.sortInsert cmp x l ≡ₚ x :: l.
Proof.
  induction l as [|y l IH]; simpl; [done|].
  destruct (cmp x y <=? 0); [done|].
  by rewrite IH, Permutation_swap.
Qed.

Lemma Array_sort_perm l : JS.Array_sort cmp l ≡ₚ l.
Proof.
  induction l as [|x l IH]; simpl; [done|].
  by rewrite sortInsert_perm, IH.
Qed.

Lemma sortInsert_sorted x l :
  StronglySorted (λ a b, cmp a b ≤ 0) l →
  StronglySorted (λ a b, cmp a b ≤ 0) (JS.sortInsert cmp x l).
Proof.
  induction 1 as [|y l Hs IH Hy]; simpl.
  - repeat constructor.
  - destruct (Z.leb_spec (cmp x y) 0) as [Hle|Hgt].
    + constructor; [by constructor|].
      constructor; [done|].
      eapply Forall_impl; [exact Hy|]. intros z Hz. by apply (cmp_le_trans x y z).
    + constructor; [done|].
      rewrite sortInsert_perm. constructor; [|done].
      apply cmp_after_swap. lia.
Qed.

Lemma Array_sort_sorted l :
  StronglySorted (λ a b, cmp a b ≤ 0) (JS.Array_sort cmp l).
Proof.
  induction l as [|x l IH]; simpl; [constructor|]. by apply sortInsert_sorted.
Qed.

Lemma sortInsert_filter x a l :
  filter (λ z, cmp x z = 0) (JS.sortInsert cmp a l)
  = filter (λ z, cmp x z = 0) (a :: l).
Proof.
  induction l as [|y l IH]; simpl; [done|].
  destruct (Z.leb_spec (cmp a y) 0) as [Hle|Hgt]; [done|].
  rewrite filter_cons, IH, !(filter_cons _ a), (filter_cons _ y).
  destruct (decide (cmp x a = 0)) as [Ha|]; [|done].
  destruct (decide (cmp x y = 0)) as [Hy|]; [|done].
  pose proof (cmp_zero_trans x a y Ha Hy). lia.
Qed.

(** Stability: the records with any given key keep their input order. *)
Lemma Array_sort_stable x l :
  filter (λ z, cmp x z = 0) (JS.Array_sort cmp l) = filter (λ z, cmp x z = 0) l.
Proof.
  induction l as [|a l IH]; simpl; [done|].
  by rewrite sortInsert_filter, !filter_cons, IH.
Qed.

Lemma Array_sort_sorted_id l :
  StronglySorted (λ a b, cmp a b ≤ 0) l → JS.Array_sort cmp l = l.
Proof.
  induction 1 as [|x l Hs IH Hx]; simpl; [done|].
  rewrite IH. destruct Hx as [|y l Hy _]; simpl; [done|].
  by destruct (Z.leb_spec (cmp x y) 0); [|lia].
Qed.

Lemma Array_sort_idem l :
  JS.Array_sort cmp (JS.Array_sort cmp l) = JS.Array_sort cmp l.
Proof. apply Array_sort_sorted_id, Array_sort_sorted. Qed.

(** Two sorted lists in which the records of each key come in the same
    order are the same list. *)
Lemma sorted_stable_unique l1 l2 :
  StronglySorted (λ a b, cmp a b ≤ 0) l1 →
  StronglySorted (λ a b, cmp a b ≤ 0) l2 →
  (∀ x, filter (λ z, cmp x z = 0) l1 = filter (λ z, cmp x z = 0) l2) →
  l1 = l2.
Proof.
  intros Hs1. revert l2.
  induction Hs1 as [|a l1 Hs1 IH Ha]; intros l2 Hs2 Hf.
  - destruct l2 as [|b l2]; [done|].
    specialize (Hf b). rewrite filter_nil, filter_cons_True in Hf by apply cmp_refl.
    discriminate.
  - destruct Hs2 as [|b l2 Hs2 Hb].
    { specialize (Hf a). rewrite filter_nil, filter_cons_True in Hf by apply cmp_refl.
      discriminate. }
    assert (a ∈ b :: l2) as Hin2.
    { apply (list_elem_of_filter (λ z, cmp a z = 0) (b :: l2) a).
      rewrite <- Hf, filter_cons_True by apply cmp_refl. left. }
    assert (b ∈ a :: l1) as Hin1.
    { apply (list_elem_of_filter (λ z, cmp b z = 0) (a :: l1) b).
      rewrite Hf, filter_cons_True by apply cmp_refl. left. }
    assert (cmp a b = 0) as Hab.
    { assert (cmp a b ≤ 0).
      { apply elem_of_cons in Hin1 as [->|Hin1]; [by rewrite cmp_refl|].
        by apply (proj1 (Forall_forall _ _) Ha). }
      assert (cmp b a ≤ 0) as Hba.
      { apply elem_of_cons in Hin2 as [->|Hin2]; [by rewrite cmp_refl|].
        by apply (proj1 (Forall_forall _ _) Hb). }
      apply cmp_swap_le in Hba. lia. }
    assert (a = b) as <-.
    { pose proof (Hf a) as Hfa.
      rewrite !filter_cons_True in Hfa by (done || apply cmp_refl). congruence. }
    f_equal. apply IH; [done|]. intros x. specialize (Hf x).
    rewrite !filter_cons in Hf. destruct (decide (cmp x a = 0)); congruence.
Qed.

(** Every stable sorting procedure returns the list [Array_sort] returns. *)
Lemma stable_sort_unique l out :
  StronglySorted (λ a b, cmp a b ≤ 0) out →
  (∀ x, filter (λ z, cmp x z = 0) out = filter (λ z, cmp x z = 0) l) →
  out = JS.Array_sort cmp l.
Proof.
  intros Hs Hf. apply sorted_stable_unique; [done|apply Array_sort_sorted|].
  intros x. by rewrite Array_sort_stable.
Qed.

End ArraySortFacts.

(** *** Negating the comparator *)

Section NegatedComparator.
Context {A : Type} (cmp : A → A → Z) `{!ConsistentComparator cmp}.

Lemma negated_consistent : ConsistentComparator (λ a b, - cmp a b).
Proof.
  split.
  - intros a b. rewrite !Z.sgn_opp. f_equal. apply cmp_sgn_swap.
  - intros a b c Hab Hbc.
    assert (cmp c a ≤ 0); [|apply (cmp_swap_le cmp) in H; lia].
    apply (cmp_le_trans c b a); apply (cmp_swap_le cmp); lia.
Qed.

Lemma reverse_sorted_negated l :
  StronglySorted (λ a b, cmp a b ≤ 0) l →
  StronglySorted (λ a b, - cmp a b ≤ 0) (reverse l).
Proof.
  induction 1 as [|x l Hs IH Hx]; [constructor|].
  rewrite reverse_cons. apply StronglySorted_app.
  split; [|split; [done|repeat constructor]].
  intros y x' Hy ->%list_elem_of_singleton.
  rewrite elem_of_reverse in Hy.
  pose proof (proj1 (Forall_forall _ _) Hx y Hy) as Hle.
  apply (cmp_swap_le cmp) in Hle. lia.
Qed.

(** With no two different records sharing a key, sorting by the negated
    comparator gives the reversed list. *)
Lemma Array_sort_negated_reverse l :
  (∀ a b, a ∈ l → b ∈ l → cmp a b = 0 → a = b) →
  JS.Array_sort (λ a b, - cmp a b) l = reverse (JS.Array_sort cmp l).
Proof.
  intros Hkeys.
  pose proof negated_consistent as Hneg.
  apply (StronglySorted_unique_strong (λ a b, - cmp a b ≤ 0)).
  - intros x1 x2 H1 H2 H12 H21.
    rewrite (Array_sort_perm (λ a b, - cmp a b)) in H1.
    rewrite reverse_Permutation, (Array_sort_perm cmp) in H2.
    apply Hkeys; [done..|].
    assert (0 ≤ cmp x2 x1) as Hge by lia.
    apply (cmp_swap_le cmp) in Hge. lia.
  - apply (Array_sort_sorted (λ a b, - cmp a b)).
  - apply reverse_sorted_negated, (Array_sort_sorted cmp).
  - by rewrite reverse_Permutation, !Array_sort_perm.
Qed.

End NegatedComparator.

(** *** Splitting a list along its filter *)

Section FilterSplit.
Context {A : Type} (P : A → Prop) `{!∀ x, Decision (P x)}.

Lemma filter_cons_split x ys l :
  filter P l = x :: ys →
  ∃ l1 l2, l = l1 ++ x :: l2 ∧ filter P l2 = ys.
Proof.
  induction l as [|y l IH]; [done|].
  rewrite filter_cons. destruct (decide (P y)).
  - intros [= -> <-]. by exists [], l.
  - intros (l1 & l2 & -> & Hf)%IH. by exists (y :: l1), l2.
Qed.

Lemma filter_app_split xs ys l :
  filter P l = xs ++ ys →
  ∃ l1 l2, l = l1 ++ l2 ∧ filter P l2 = ys.
Proof.
  revert l. induction xs as [|x xs IH]; intros l Hf.
  - by exists [], l.
  - apply filter_cons_split in Hf as (l1 & l2 & -> & Hf).
    apply IH in Hf as (l3 & l4 & -> & Hf).
    exists (l1 ++ x :: l3), l4. by rewrite <- app_assoc.
Qed.

(** Two records picked by [P], one before the other in [l], come in that
    order in every list with the same filter. *)
Lemma filter_keeps_order l out l1 a l2 b l3 :
  filter P out = filter P l →
  l = l1 ++ a :: l2 ++ b :: l3 → P a → P b →
  ∃ o1 o2 o3, out = o1 ++ a :: o2 ++ b :: o3.
Proof.
  intros Hf -> Ha Hb.
  rewrite filter_app, filter_cons_True, filter_app, filter_cons_True in Hf by done.
  apply filter_app_split in Hf as (p1 & p2 & -> & Hf).
  apply filter_cons_split in Hf as (p3 & p4 & -> & Hf).
  apply filter_app_split in Hf as (p5 & p6 & -> & Hf).
  apply filter_cons_split in Hf as (p7 & p8 & -> & Hf).
  exists (p1 ++ p3), (p5 ++ p7), p8. by rewrite <- !app_assoc.
Qed.

End FilterSplit.

(** *** The comparator of the alert history *)

Lemma ordinalCompare_sgn_swap a b :
  Z.sgn (JS.ordinalCompare b a) = - Z.sgn (JS.ordinalCompare a b).
Proof.
  revert b. induction a as [|x a IH]; intros [|y b]; simpl; try done.
  generalize (Z.of_N (N_of_ascii x)) (Z.of_N (N_of_ascii y)). intros n m.
  destruct (Z.eqb_spec (n - m) 0), (Z.eqb_spec (m - n) 0); try lia.
  apply IH.
Qed.

Lemma ordinalCompare_le_trans a b c :
  JS.ordinalCompare a b ≤ 0 → JS.ordinalCompare b c ≤ 0 →
  JS.ordinalCompare a c ≤ 0.
Proof.
  revert b c. induction a as [|x a IH]; intros [|y b] [|z c]; simpl; try lia.
  generalize (Z.of_N (N_of_ascii x)) (Z.of_N (N_of_ascii y))
    (Z.of_N (N_of_ascii z)). intros n m k.
  destruct (Z.eqb_spec (n - m) 0), (Z.eqb_spec (m - k) 0),
    (Z.eqb_spec (n - k) 0); try lia.
  apply IH.
Qed.

Lemma ordinalCompare_consistent : ConsistentComparator JS.ordinalCompare.
Proof.
  split; [intros a b; apply ordinalCompare_sgn_swap|].
  intros a b c. apply ordinalCompare_le_trans.
Qed.

Section AlertSorting.
Context (getTime : string → Z) (localeCompare : string → string → Z).
Context `{!ConsistentComparator localeCompare}.

Lemma compareValue_consistent f :
  ConsistentComparator (AlertHistory.compareValue getTime localeCompare f).
Proof.
  destruct f; split; unfold AlertHistory.compareValue; intros a b.
  - replace (getTime (AlertHistory.timestamp b) - getTime (AlertHistory.timestamp a))
      with (- (getTime (AlertHistory.timestamp a) - getTime (AlertHistory.timestamp b)))
      by lia.
    apply Z.sgn_opp.
  - lia.
  - replace (AlertHistory.severityOrder (AlertHistory.severity b)
             - AlertHistory.severityOrder (AlertHistory.severity a))
      with (- (AlertHistory.severityOrder (AlertHistory.severity a)
               - AlertHistory.severityOrder (AlertHistory.severity b)))
      by lia.
    apply Z.sgn_opp.
  - lia.
  - apply cmp_sgn_swap.
  - intros c. apply cmp_le_trans.
Qed.

Lemma comparator_consistent s :
  ConsistentComparator (AlertHistory.comparator getTime localeCompare s).
Proof.
  pose proof (compareValue_consistent (AlertHistory.sortField s)) as Hc.
  pose proof (negated_consistent _ (ConsistentComparator0 := Hc)) as Hn.
  unfold AlertHistory.comparator.
  destruct (decide (AlertHistory.sortOrder s = AlertHistory.Asc)); simpl.
  - split; [apply Hc | apply Hc].
  - split; [apply Hn | apply Hn].
Qed.

(** What [sortedAlerts] leaves in the store. *)
Lemma sortedAlerts_store s (h : gmap nat (list AlertHistory.HistoricalAlert))
    alerts l :
  h !! alerts = Some l →
  ∃ copy,
    AlertHistory.sortedAlerts getTime localeCompare s h alerts
    = (<[copy := AlertHistory.sorted getTime localeCompare s l]> h, copy)
    ∧ h !! copy = None.
Proof.
  intros Hl. exists (fresh (dom h)).
  assert (h !! fresh (dom h) = None) as Hfresh.
  { apply not_elem_of_dom, is_fresh. }
  split; [|done].
  unfold AlertHistory.sortedAlerts, AlertHistory.spread, AlertHistory.sortInPlace,
    AlertHistory.sorted.
  rewrite Hl. simpl. f_equal.
  apply map_eq. intros i. rewrite lookup_alter.
  destruct (decide (fresh (dom h) = i)) as [<-|Hne].
  - by rewrite !lookup_insert_eq.
  - by rewrite !lookup_insert_ne.
Qed.

Lemma sorted_desc_reverse f l :
  (∀ i j a b, l !! i = Some a → l !! j = Some b → i ≠ j →
     AlertHistory.compareValue getTime localeCompare f a b ≠ 0) →
  AlertHistory.sorted getTime localeCompare
    {| AlertHistory.sortField := f; AlertHistory.sortOrder := AlertHistory.Desc |} l
  = reverse (AlertHistory.sorted getTime localeCompare
      {| AlertHistory.sortField := f; AlertHistory.sortOrder := AlertHistory.Asc |} l).
Proof.
  intros Hkeys. unfold AlertHistory.sorted.
  pose proof (compareValue_consistent f) as Hc.
  apply (Array_sort_negated_reverse
           (AlertHistory.compareValue getTime localeCompare f)).
  intros a b [i Hi]%list_elem_of_lookup [j Hj]%list_elem_of_lookup Hab.
  destruct (decide (i = j)) as [->|Hne]; [congruence|].
  by destruct (Hkeys i j a b).
Qed.

End AlertSorting.

(** ** Sorting the alert history *)

Section SortedAlerts.
Context (getTime : string → Z) (localeCompare : string → string → Z).
Context `{!ConsistentComparator localeCompare}.

(** C3. [sortedAlerts] sorts a fresh copy of the [alerts] array: the array
    it was given still holds the same list, the array it returns is a new
    one holding a permutation of that list, ordered by the comparator of the
    selected field (timestamp: difference of the time values; severity:
    difference of the ranks High 3, Medium 2, Low 1; type: [localeCompare]),
    negated when the order is desc; with pairwise distinct keys the
    descending result is the ascending one reversed. *)
Theorem sortedAlerts_ordered (s : AlertHistory.State)
    (h : gmap nat (list AlertHistory.HistoricalAlert)) (alerts : nat)
    (l : list AlertHistory.HistoricalAlert) :
  h !! alerts = Some l →
  ∃ h' copy out,
    AlertHistory.sortedAlerts getTime localeCompare s h alerts = (h', copy)
    ∧ h !! copy = None
    ∧ h' !! alerts = Some l
    ∧ h' !! copy = Some out
    ∧ out = AlertHistory.sorted getTime localeCompare s l
    ∧ out ≡ₚ l
    ∧ StronglySorted
        (λ a b, AlertHistory.comparator getTime localeCompare s a b ≤ 0) out
    ∧ (∀ a b, AlertHistory.compareValue getTime localeCompare
                AlertHistory.ByTimestamp a b
              = getTime (AlertHistory.timestamp a)
                - getTime (AlertHistory.timestamp b))
    ∧ (∀ a b, AlertHistory.compareValue getTime localeCompare
                AlertHistory.BySeverity a b
              = AlertHistory.severityOrder (AlertHistory.severity a)
                - AlertHistory.severityOrder (AlertHistory.severity b))
    ∧ AlertHistory.severityOrder High = 3
    ∧ AlertHistory.severityOrder Medium = 2
    ∧ AlertHistory.severityOrder Low = 1
    ∧ (∀ a b, AlertHistory.compareValue getTime localeCompare
                AlertHistory.ByType a b
              = localeCompare (AlertHistory.type a) (AlertHistory.type b))
    ∧ (∀ a b, AlertHistory.comparator getTime localeCompare s a b
              = match AlertHistory.sortOrder s with
                | AlertHistory.Asc =>
                    AlertHistory.compareValue getTime localeCompare
                      (AlertHistory.sortField s) a b
                | AlertHistory.Desc =>
                    - AlertHistory.compareValue getTime localeCompare
                        (AlertHistory.sortField s) a b
                end)
    ∧ ((∀ i j a b, l !! i = Some a → l !! j = Some b → i ≠ j →
          AlertHistory.compareValue getTime localeCompare
            (AlertHistory.sortField s) a b ≠ 0) →
       AlertHistory.sorted getTime localeCompare
         {| AlertHistory.sortField := AlertHistory.sortField s;
            AlertHistory.sortOrder := AlertHistory.Desc |} l
       = reverse (AlertHistory.sorted getTime localeCompare
           {| AlertHistory.sortField := AlertHistory.sortField s;
              AlertHistory.sortOrder := AlertHistory.Asc |} l)).
Proof.
  intros Hl.
  destruct (sortedAlerts_store getTime localeCompare s h alerts l Hl)
    as (copy & Hrun & Hfresh).
  pose proof (comparator_consistent getTime localeCompare s) as Hc.
  exists (<[copy := AlertHistory.sorted getTime localeCompare s l]> h), copy,
    (AlertHistory.sorted getTime localeCompare s l).
  split; [done|]. split; [done|].
  split. { rewrite lookup_insert_ne; [done|]. intros ->. congruence. }
  split. { by rewrite lookup_insert_eq. }
  split; [done|].
  split. { apply Array_sort_perm. }
  split. { apply (Array_sort_sorted _). }
  do 6 (split; [done|]).
  split. { intros a b. by destruct s as [f []]. }
  exact (sorted_desc_reverse getTime localeCompare (AlertHistory.sortField s) l).
Qed.

(** C4. The sort is stable: for every key, the records carrying it come
    out in the order they came in, so of two records with equal keys the one
    that was first stays first; sorting a sorted list again, by the same
    field and order, returns it unchanged. *)
Theorem sortedAlerts_stable (s : AlertHistory.State)
    (l : list AlertHistory.HistoricalAlert) :
  (∀ x, filter (λ z, AlertHistory.comparator getTime localeCompare s x z = 0)
          (AlertHistory.sorted getTime localeCompare s l)
        = filter (λ z, AlertHistory.comparator getTime localeCompare s x z = 0) l)
  ∧ (∀ l1 a l2 b l3,
       l = l1 ++ a :: l2 ++ b :: l3 →
       AlertHistory.comparator getTime localeCompare s a b = 0 →
       ∃ o1 o2 o3,
         AlertHistory.sorted getTime localeCompare s l = o1 ++ a :: o2 ++ b :: o3)
  ∧ AlertHistory.sorted getTime localeCompare s
      (AlertHistory.sorted getTime localeCompare s l)
    = AlertHistory.sorted getTime localeCompare s l
  ∧ (StronglySorted
       (λ a b, AlertHistory.comparator getTime localeCompare s a b ≤ 0) l →
     AlertHistory.sorted getTime localeCompare s l = l).
Proof.
  pose proof (comparator_consistent getTime localeCompare s) as Hc.
  split. { intros x. apply (Array_sort_stable _). }
  split.
  { intros l1 a l2 b l3 Hsplit Hab.
    apply (filter_keeps_order
             (λ z, AlertHistory.comparator getTime localeCompare s a z = 0)
             l _ l1 a l2 b l3); [|done| |done].
    - apply (Array_sort_stable _).
    - apply (cmp_refl _). }
  split. { apply (Array_sort_idem _). }
  apply (Array_sort_sorted_id _).
Qed.

End SortedAlerts.

(** ** The sort selection *)

(** C5. A click on the active column keeps the field and flips the order
    between asc and desc; a click on another column selects that field with
    order desc. *)
Theorem handleSort_toggle (s : AlertHistory.State) (field : AlertHistory.SortField) :
  AlertHistory.click s field
  = if decide (field = AlertHistory.sortField s) then
      {| AlertHistory.sortField := AlertHistory.sortField s;
         AlertHistory.sortOrder :=
           match AlertHistory.sortOrder s with
           | AlertHistory.Asc => AlertHistory.Desc
           | AlertHistory.Desc => AlertHistory.Asc
           end |}
    else
      {| AlertHistory.sortField := field;
         AlertHistory.sortOrder := AlertHistory.Desc |}.
Proof. by destruct s as [[] []], field. Qed.

(** C6, as the code has it. From the default state (timestamp, desc) the
    first click on the timestamp column gives order asc, the second gives
    order desc again; the field is timestamp throughout. *)
Theorem timestamp_clicked_twice :
  AlertHistory.initialState
  = {| AlertHistory.sortField := AlertHistory.ByTimestamp;
       AlertHistory.sortOrder := AlertHistory.Desc |}
  ∧ AlertHistory.click AlertHistory.initialState AlertHistory.ByTimestamp
    = {| AlertHistory.sortField := AlertHistory.ByTimestamp;
         AlertHistory.sortOrder := AlertHistory.Asc |}
  ∧ AlertHistory.click
      (AlertHistory.click AlertHistory.initialState AlertHistory.ByTimestamp)
      AlertHistory.ByTimestamp
    = {| AlertHistory.sortField := AlertHistory.ByTimestamp;
         AlertHistory.sortOrder := AlertHistory.Desc |}.
Proof. done. Qed.

(** Two calls of the handler of one render, with no render in between,
    would both read order desc and both ask for asc; the component makes
    one call per click, each from the render that follows the previous
    click. *)
Remark handleSort_same_render_twice :
  foldl AlertHistory.commit AlertHistory.initialState
    (AlertHistory.handleSort AlertHistory.initialState AlertHistory.ByTimestamp
     ++ AlertHistory.handleSort AlertHistory.initialState AlertHistory.ByTimestamp)
  = {| AlertHistory.sortField := AlertHistory.ByTimestamp;
       AlertHistory.sortOrder := AlertHistory.Asc |}.
Proof. done. Qed.

(** C6 as stated fails: after the second click the order is not asc. *)
Lemma timestamp_clicked_twice_not_asc :
  ¬ (AlertHistory.sortOrder
       (AlertHistory.click
          (AlertHistory.click AlertHistory.initialState AlertHistory.ByTimestamp)
          AlertHistory.ByTimestamp)
     = AlertHistory.Asc
     ∧ AlertHistory.sortField
         (AlertHistory.click
            (AlertHistory.click AlertHistory.initialState AlertHistory.ByTimestamp)
            AlertHistory.ByTimestamp)
       = AlertHistory.ByTimestamp).
Proof. intros [H _]. discriminate H. Qed.

(** ** Polling with fallback *)

(** C7, as the code has it. Whatever error the request is rejected with
    (network error, timeout or any other thrown value), [fetchAlerts]
    completes normally with the 4-element fallback list: ids "1" to "4" in
    that order,
    types Smoke Detected, Electrical Fault, Temperature Spike, Fire Detected;
    every field but the timestamp is the same at every invocation, and the
    timestamps are the clock readings of the invocation less 120000, 300000,
    600000 and 900000 ms. *)
Theorem fetchAlerts_fallback :
  (∀ clock err s,
     HazardAlerts.fetchAlerts clock (Rejected err) s
     = (inr tt, {| HazardAlerts.alerts := HazardAlerts.fallbackAlerts clock;
                   HazardAlerts.loading := false |}))
  ∧ (∀ clock, HazardAlerts.id <$> HazardAlerts.fallbackAlerts clock
              = ["1"; "2"; "3"; "4"])
  ∧ (∀ clock, HazardAlerts.type <$> HazardAlerts.fallbackAlerts clock
              = ["Smoke Detected"; "Electrical Fault"; "Temperature Spike";
                 "Fire Detected"])
  ∧ (∀ clock clock',
       HazardAlerts.fixedPart <$> HazardAlerts.fallbackAlerts clock
       = HazardAlerts.fixedPart <$> HazardAlerts.fallbackAlerts clock')
  ∧ (∀ clock, HazardAlerts.timestamp <$> HazardAlerts.fallbackAlerts clock
              = [JS.toISOString (clock 0%nat - 120000);
                 JS.toISOString (clock 1%nat - 300000);
                 JS.toISOString (clock 2%nat - 600000);
                 JS.toISOString (clock 3%nat - 900000)])
  ∧ (∀ clock response s,
       (HazardAlerts.fetchAlerts clock response s).1 = inr tt).
Proof.
  split; [done|]. do 4 (split; [done|]).
  by intros clock [data|err] s.
Qed.

(** C7 as stated fails: two failed polls, 5 seconds apart, do not yield the
    same sequence. *)
Lemma fetchAlerts_fallback_not_fixed :
  HazardAlerts.alerts
    (HazardAlerts.fetchAlerts (λ _, 1700000000000)
       (Rejected (AxiosError (Some "ERR_NETWORK")))
       HazardAlerts.initialState).2
  ≠ HazardAlerts.alerts
      (HazardAlerts.fetchAlerts (λ _, 1700000005000)
         (Rejected (AxiosError (Some "ERR_NETWORK")))
         HazardAlerts.initialState).2.
Proof. vm_compute. discriminate. Qed.

(** ** The dashboard *)

Lemma fetchData_completes now response s :
  (Dashboard.fetchData now response s).1 = inr tt.
Proof.
  destruct response as [data|[code|message]]; [done| |done].
  unfold Dashboard.fetchData, Eff.tryFinally, Eff.tryCatch. simpl.
  unfold mbind, Eff_bind, Eff.bind. simpl.
  by destruct (bool_decide (code = Some "ERR_NETWORK")).
Qed.

(** [fetchData] writes nothing but [null] to the error cell. *)
Lemma fetchData_error now response s :
  Dashboard.error (Dashboard.fetchData now response s).2 = None
  ∨ Dashboard.error (Dashboard.fetchData now response s).2 = Dashboard.error s.
Proof.
  destruct response as [data|[code|message]]; [by left| |by right].
  unfold Dashboard.fetchData, Eff.tryFinally, Eff.tryCatch. simpl.
  unfold mbind, Eff_bind, Eff.bind. simpl.
  destruct (bool_decide (code = Some "ERR_NETWORK")); [by left|by right].
Qed.

Lemma fetchData_hazard_fallback now err s :
  Dashboard.hazard (Dashboard.fetchData now (Rejected err) s).2
  = Some {| Dashboard.type := "Smoke Detected";
            Dashboard.risk_level := "High";
            Dashboard.location := "Module A-12";
            Dashboard.timestamp := JS.toISOString now;
            Dashboard.confidence := Some 92 |}
  ∧ Dashboard.loading (Dashboard.fetchData now (Rejected err) s).2 = false.
Proof.
  destruct err as [code|message]; [|done].
  unfold Dashboard.fetchData, Eff.tryFinally, Eff.tryCatch. simpl.
  unfold mbind, Eff_bind, Eff.bind. simpl.
  by destruct (bool_decide (code = Some "ERR_NETWORK")).
Qed.

Lemma polls_keep_error_null polls s :
  Dashboard.error s = None →
  Dashboard.error
    (foldl (λ s poll, (Dashboard.fetchData poll.1 poll.2 s).2) s polls) = None.
Proof.
  revert s. induction polls as [|[now response] polls IH]; intros s Hs; [done|].
  simpl. apply IH.
  destruct (fetchData_error now response s) as [H|H]; congruence.
Qed.

(** C8. When the request on [/detect] fails, the snapshot is the fallback:
    type "Smoke Detected", risk_level "High", location "Module A-12",
    confidence 92 and the time of the failure as timestamp; the summary cards
    and the confidence bar are drawn from it. *)
Theorem fetchData_fallback (now : Z) (err : Thrown) (s : Dashboard.State) :
  let s' := (Dashboard.fetchData now (Rejected err) s).2 in
  let fallback :=
    {| Dashboard.type := "Smoke Detected";
       Dashboard.risk_level := "High";
       Dashboard.location := "Module A-12";
       Dashboard.timestamp := JS.toISOString now;
       Dashboard.confidence := Some 92 |} in
  (Dashboard.fetchData now (Rejected err) s).1 = inr tt
  ∧ Dashboard.hazard s' = Some fallback
  ∧ Dashboard.loading s' = false
  ∧ Dashboard.statusCard (Dashboard.hazard s') = [Dashboard.Text "Detected"]
  ∧ Dashboard.riskLevelCard (Dashboard.hazard s') = [Dashboard.Text "High"]
  ∧ Dashboard.locationCard (Dashboard.hazard s') = [Dashboard.Text "Module A-12"]
  ∧ Dashboard.confidenceSlot fallback
    = [Dashboard.confidenceBlock (Dashboard.VNumber 92)]
  ∧ Dashboard.getRiskColor (Dashboard.risk_level fallback)
    = Dashboard.riskColorOf CatHigh
  ∧ SafetyResponsePanel.getSafetyActions (Dashboard.type fallback)
    = SafetyResponsePanel.smokeActions.
Proof.
  intros s' fallback.
  destruct (fetchData_hazard_fallback now err s) as [Hh Hl].
  split; [apply fetchData_completes|].
  split; [done|]. split; [done|].
  subst s'. rewrite Hh. by vm_compute.
Qed.

(** C9. The error cell is [null] initially and after every sequence of
    completed polls, whatever their outcomes; every invocation of
    [fetchData] completes normally, and a failure other than ERR_NETWORK,
    for which [setError] is not called, leaves the cell as it was. *)
Theorem error_always_null :
  Dashboard.error Dashboard.initialState = None
  ∧ (∀ polls, Dashboard.error (Dashboard.afterPolls polls) = None)
  ∧ (∀ now response s, (Dashboard.fetchData now response s).1 = inr tt)
  ∧ (∀ now message s,
       Dashboard.error
         (Dashboard.fetchData now (Rejected (OtherError message)) s).2
       = Dashboard.error s)
  ∧ (∀ now s,
       Dashboard.error
         (Dashboard.fetchData now (Rejected (AxiosError (Some "ECONNABORTED"))) s).2
       = Dashboard.error s).
Proof.
  split; [done|].
  split. { intros polls. by apply polls_keep_error_null. }
  split; [apply fetchData_completes|].
  split; done.
Qed.

(** C10, on the code. The bar and the percentage are drawn exactly when the
    confidence is present and not 0; but a confidence of 0 is not drawn like
    an absent one: the guard [hazard.confidence && (..)] then evaluates to
    the number 0, which is drawn as the text "0", where an absent confidence
    draws nothing. *)
Theorem confidence_zero_drawn_as_text :
  (∀ h, Dashboard.confidenceSlot h
        = match Dashboard.confidence h with
          | None => []
          | Some c =>
              if c =? 0 then [Dashboard.Text "0"]
              else [Dashboard.confidenceBlock (Dashboard.VNumber c)]
          end)
  ∧ Dashboard.confidenceSlot
      {| Dashboard.type := "Smoke Detected"; Dashboard.risk_level := "High";
         Dashboard.location := "Module A-12";
         Dashboard.timestamp := "2023-11-14T22:13:20.000Z";
         Dashboard.confidence := Some 0 |}
    = [Dashboard.Text "0"]
  ∧ Dashboard.confidenceSlot
      {| Dashboard.type := "Smoke Detected"; Dashboard.risk_level := "High";
         Dashboard.location := "Module A-12";
         Dashboard.timestamp := "2023-11-14T22:13:20.000Z";
         Dashboard.confidence := None |}
    = []
  ∧ Dashboard.confidenceSlot
      {| Dashboard.type := "Smoke Detected"; Dashboard.risk_level := "High";
         Dashboard.location := "Module A-12";
         Dashboard.timestamp := "2023-11-14T22:13:20.000Z";
         Dashboard.confidence := Some 0 |}
    ≠ Dashboard.confidenceSlot
        {| Dashboard.type := "Smoke Detected"; Dashboard.risk_level := "High";
           Dashboard.location := "Module A-12";
           Dashboard.timestamp := "2023-11-14T22:13:20.000Z";
           Dashboard.confidence := None |}.
Proof.
  split.
  { intros [ty rl loc ts [c|]]; [|done].
    unfold Dashboard.confidenceSlot, Dashboard.jsAnd, Dashboard.confidenceOf.
    simpl. by destruct (Z.eqb_spec c 0) as [->|]. }
  split; [done|]. split; [done|]. vm_compute. discriminate.
Qed.

(** ** The theorems at work on the mock history *)

(** Case analysis on an index [i] into a list given in full, [Hi] being the
    lookup at [i]; [tac] runs for every index within bounds. *)
Ltac each_index i Hi tac :=
  first [ discriminate Hi
        | destruct i as [|i]; [ tac | each_index i Hi tac ] ].

(** The mock history of a render at 2023-11-14T22:13:20Z, sorted by
    timestamp under the default selection. *)
Lemma sortedAlerts_ordered_witness :
  let l := AlertHistory.alerts (λ _, 1700000000000) in
  let h : gmap nat (list AlertHistory.HistoricalAlert) := {[ 7%nat := l ]} in
  h !! 7%nat = Some l
  ∧ ConsistentComparator JS.ordinalCompare
  ∧ (∃ h' copy out,
       AlertHistory.sortedAlerts JS.getTimeISO JS.ordinalCompare
         AlertHistory.initialState h 7%nat = (h', copy)
       ∧ h' !! 7%nat = Some l
       ∧ h' !! copy = Some out
       ∧ out ≡ₚ l)
  ∧ AlertHistory.sorted JS.getTimeISO JS.ordinalCompare
      {| AlertHistory.sortField := AlertHistory.ByTimestamp;
         AlertHistory.sortOrder := AlertHistory.Desc |} l
    = reverse (AlertHistory.sorted JS.getTimeISO JS.ordinalCompare
        {| AlertHistory.sortField := AlertHistory.ByTimestamp;
           AlertHistory.sortOrder := AlertHistory.Asc |} l).
Proof.
  intros l h.
  assert (h !! 7%nat = Some l) as Hl by reflexivity.
  split; [exact Hl|]. split; [exact ordinalCompare_consistent|].
  destruct (@sortedAlerts_ordered JS.getTimeISO JS.ordinalCompare
              ordinalCompare_consistent AlertHistory.initialState h 7%nat l Hl)
    as (h' & copy & out & Hrun & _ & Hkept & Hout & _ & Hperm & _ & _ & _ & _
        & _ & _ & _ & _ & Hrev).
  split.
  - exists h', copy, out. repeat split; assumption.
  - apply Hrev. intros i j a b Hi Hj Hne.
    each_index i Hi ltac:(each_index j Hj ltac:(first
      [ exfalso; apply Hne; reflexivity
      | vm_compute in Hi, Hj; injection Hi as <-; injection Hj as <-;
        vm_compute; discriminate ])).
Defined.

(** The mock history sorted by severity: the three High records keep their
    order, and sorting the result again changes nothing. *)
Lemma sortedAlerts_stable_witness :
  let l := AlertHistory.alerts (λ _, 1700000000000) in
  let s := {| AlertHistory.sortField := AlertHistory.BySeverity;
              AlertHistory.sortOrder := AlertHistory.Desc |} in
  ConsistentComparator JS.ordinalCompare
  ∧ AlertHistory.sorted JS.getTimeISO JS.ordinalCompare s
      (AlertHistory.sorted JS.getTimeISO JS.ordinalCompare s l)
    = AlertHistory.sorted JS.getTimeISO JS.ordinalCompare s l
  ∧ AlertHistory.id <$> AlertHistory.sorted JS.getTimeISO JS.ordinalCompare s l
    = ["1"; "2"; "4"; "3"; "6"; "5"].
Proof.
  intros l s. split; [exact ordinalCompare_consistent|].
  split; [|reflexivity].
  exact (proj1 (proj2 (proj2
    (@sortedAlerts_stable JS.getTimeISO JS.ordinalCompare
       ordinalCompare_consistent s l)))).
Defined.

(** * Further properties of the components *)

(** Division and remainder by a literal are arithmetic [lia] decides. *)
Ltac Zify.zify_post_hook ::= Z.to_euclidean_division_equations.

(** ** Printing and reading dates *)

Lemma civilFromDays_inverse z :
  let '(y, m, d) := JS.civilFromDays z in
  JS.daysFromCivil y m d = z ∧ 1 ≤ m ≤ 12 ∧ 1 ≤ d ≤ 31.
Proof.
  unfold JS.civilFromDays, JS.daysFromCivil.
  set (z0 := z + 719468).
  set (era := z0 / 146097).
  set (doe := z0 - era * 146097).
  assert (0 ≤ doe < 146097) by (subst doe era; lia).
  set (yoe := (doe - doe / 1460 + doe / 36524 - doe / 146096) / 365).
  assert (0 ≤ yoe ≤ 399) by (subst yoe; lia).
  set (doy := doe - (365 * yoe + yoe / 4 - yoe / 100)).
  assert (0 ≤ doy ≤ 365) by (subst doy yoe; lia).
  set (mp := (5 * doy + 2) / 153).
  assert (0 ≤ mp ≤ 11) by (subst mp; lia).
  set (d := doy - (153 * mp + 2) / 5 + 1).
  assert (1 ≤ d ≤ 31) by (subst d mp; lia).
  destruct (Z.ltb_spec mp 10).
  - destruct (Z.leb_spec (mp + 3) 2); [lia|].
    destruct (Z.ltb_spec 2 (mp + 3)); [|lia].
    replace (mp + 3 - 3) with mp by lia.
    replace ((yoe + era * 400) / 400) with era by lia.
    split; [|lia]. subst d doy doe z0. lia.
  - destruct (Z.leb_spec (mp - 9) 2); [|lia].
    destruct (Z.ltb_spec 2 (mp - 9)); [lia|].
    replace (mp - 9 + 9) with mp by lia.
    replace (yoe + era * 400 + 1 - 1) with (yoe + era * 400) by lia.
    replace ((yoe + era * 400) / 400) with era by lia.
    split; [|lia]. subst d doy doe z0. lia.
Qed.

(** From 1970 to the end of the year 9999 the year has four digits. *)
Lemma civilFromDays_year t :
  0 ≤ t < 253402300800000 →
  1970 ≤ (JS.civilFromDays (t / JS.msPerDay)).1.1 ≤ 9999.
Proof.
  intros Ht. unfold JS.civilFromDays, JS.msPerDay.
  set (z := t / 86400000).
  assert (0 ≤ z ≤ 2932896) by (subst z; lia).
  set (z0 := z + 719468).
  set (era := z0 / 146097).
  set (doe := z0 - era * 146097).
  assert (0 ≤ doe < 146097) by (subst doe era; lia).
  assert (4 ≤ era ≤ 24) by (subst era z0; lia).
  set (yoe := (doe - doe / 1460 + doe / 36524 - doe / 146096) / 365).
  assert (0 ≤ yoe ≤ 399) by (subst yoe; lia).
  set (doy := doe - (365 * yoe + yoe / 4 - yoe / 100)).
  assert (0 ≤ doy ≤ 365) by (subst doy yoe; lia).
  set (mp := (5 * doy + 2) / 153).
  assert (0 ≤ mp ≤ 11) by (subst mp; lia).
  simpl.
  destruct (Z.ltb_spec mp 10).
  - destruct (Z.leb_spec (mp + 3) 2); [lia|]. split; [|lia].
    subst doy yoe doe era z0. lia.
  - destruct (Z.leb_spec (mp - 9) 2); [|lia].
    split; subst mp doy yoe doe era z0; lia.
Qed.

Lemma digitValue_digit n : JS.digitValue (JS.digit n) = n mod 10.
Proof.
  unfold JS.digitValue, JS.digit. rewrite N_ascii_embedding by lia. lia.
Qed.

Lemma two_digits n : 0 ≤ n < 100 → 10 * ((n / 10) mod 10) + n mod 10 = n.
Proof. lia. Qed.

Lemma four_digits n :
  0 ≤ n < 10000 →
  1000 * ((n / 10 / 10 / 10) mod 10) + 100 * ((n / 10 / 10) mod 10)
  + 10 * ((n / 10) mod 10) + n mod 10 = n.
Proof. lia. Qed.

(** Reading back what [toISOString] printed gives the time value it was
    printed from. *)
Lemma getTimeISO_toISOString t :
  0 ≤ t < 253402300800000 → JS.getTimeISO (JS.toISOString t) = t.
Proof.
  intros Ht. pose proof (civilFromDays_year t Ht) as Hy.
  pose proof (civilFromDays_inverse (t / JS.msPerDay)) as Hc.
  unfold JS.toISOString.
  destruct (JS.civilFromDays (t / JS.msPerDay)) as [[y m] d]. simpl in Hy.
  destruct Hc as (Hdays & Hm & Hd).
  unfold JS.yearString.
  destruct (Z.leb_spec 0 y); [|lia]. destruct (Z.leb_spec y 9999); [|lia].
  cbn [andb]. unfold JS.getTimeISO.
  cbv [JS.pad String.append list_ascii_of_string fmap list_fmap].
  rewrite !digitValue_digit.
  rewrite four_digits, !two_digits by (unfold JS.msPerDay; lia).
  rewrite Hdays. unfold JS.msPerDay. lia.
Qed.

(** ** Time labels of the alert cards *)

(** X1. [getTimeAgo] by the age [d] of the timestamp in milliseconds: "Just
    now" below one minute, future timestamps included; the whole minutes
    [d / 60000], from 1 to 59, below one hour; the whole hours
    [d / 3600000], from 1 to 23, below one day; the locale date from one
    day on. *)
Theorem getTimeAgo_ranges (getTime : string → Z) (toLocaleDateString : Z → string)
    (now : Z) (timestamp : string) :
  (now - getTime timestamp < 60000 →
     HazardAlerts.getTimeAgo getTime toLocaleDateString now timestamp = "Just now")
  ∧ (60000 ≤ now - getTime timestamp < 3600000 →
       HazardAlerts.getTimeAgo getTime toLocaleDateString now timestamp
       = JS.Number_toString ((now - getTime timestamp) / 60000) +:+ "m ago"
       ∧ 1 ≤ (now - getTime timestamp) / 60000 ≤ 59)
  ∧ (3600000 ≤ now - getTime timestamp < 86400000 →
       HazardAlerts.getTimeAgo getTime toLocaleDateString now timestamp
       = JS.Number_toString ((now - getTime timestamp) / 3600000) +:+ "h ago"
       ∧ 1 ≤ (now - getTime timestamp) / 3600000 ≤ 23)
  ∧ (86400000 ≤ now - getTime timestamp →
       HazardAlerts.getTimeAgo getTime toLocaleDateString now timestamp
       = toLocaleDateString (getTime timestamp)).
Proof.
  unfold HazardAlerts.getTimeAgo.
  set (d := now - getTime timestamp).
  split; [|split; [|split]]; intros Hd.
  - destruct (Z.ltb_spec (d / 60000) 1); [done|lia].
  - split; [|lia].
    destruct (Z.ltb_spec (d / 60000) 1); [lia|].
    destruct (Z.ltb_spec (d / 60000) 60); [done|lia].
  - split; [|lia].
    destruct (Z.ltb_spec (d / 60000) 1); [lia|].
    destruct (Z.ltb_spec (d / 60000) 60); [lia|].
    destruct (Z.ltb_spec (d / 60000 / 60) 24); [|lia].
    by replace (d / 60000 / 60) with (d / 3600000) by lia.
  - destruct (Z.ltb_spec (d / 60000) 1); [lia|].
    destruct (Z.ltb_spec (d / 60000) 60); [lia|].
    destruct (Z.ltb_spec (d / 60000 / 60) 24); [lia|done].
Qed.

(** A timestamp between [m] and [m + 1] minutes old, for [m] from 1 to 59,
    is labelled with [m]. *)
Lemma getTimeAgo_minutes getTime toLocaleDateString now timestamp m :
  1 ≤ m < 60 →
  m * 60000 ≤ now - getTime timestamp < (m + 1) * 60000 →
  HazardAlerts.getTimeAgo getTime toLocaleDateString now timestamp
  = JS.Number_toString m +:+ "m ago".
Proof.
  intros Hm Hd. unfold HazardAlerts.getTimeAgo.
  replace ((now - getTime timestamp) / 60000) with m by lia.
  destruct (Z.ltb_spec m 1); [lia|]. by destruct (Z.ltb_spec m 60); [|lia].
Qed.

(** X2. While the backend is down the alert cards read the same: a render
    that follows a failed poll by less than a minute shows "4 active alerts"
    and the four fallback cards, keys "1" to "4", drawn High, Medium, Low,
    High and labelled "2m ago", "5m ago", "10m ago", "15m ago". *)
Theorem fallback_cards (fetchClock renderClock : nat → Z) (err : Thrown)
    (s : HazardAlerts.State) (toLocaleDateString : Z → string) :
  (∀ k, (k < 4)%nat → 900000 ≤ fetchClock k < 253402300800000) →
  (∀ k, (k < 4)%nat → fetchClock k ≤ renderClock k < fetchClock k + 60000) →
  ∃ cards,
    HazardAlerts.view JS.getTimeISO toLocaleDateString renderClock
      (HazardAlerts.fetchAlerts fetchClock (Rejected err) s).2
    = HazardAlerts.AlertsView "4 active alerts" (Some cards)
    ∧ HazardAlerts.cardKey <$> cards = ["1"; "2"; "3"; "4"]
    ∧ HazardAlerts.cardTime <$> cards
      = ["2m ago"; "5m ago"; "10m ago"; "15m ago"]
    ∧ HazardAlerts.cardClass <$> cards
      = Dashboard.riskColorOf <$> [CatHigh; CatMedium; CatLow; CatHigh]
    ∧ HazardAlerts.badgeClass <$> cards
      = Dashboard.riskBadgeColorOf <$> [CatHigh; CatMedium; CatLow; CatHigh]
    ∧ HazardAlerts.badgeText <$> cards = ["High"; "Medium"; "Low"; "High"].
Proof.
  intros Hfetch Hrender.
  change (HazardAlerts.fetchAlerts fetchClock (Rejected err) s).2
    with {| HazardAlerts.alerts := HazardAlerts.fallbackAlerts fetchClock;
            HazardAlerts.loading := false |}.
  eexists. split; [reflexivity|].
  split; [reflexivity|].
  split; [|by repeat split].
  cbn [fmap list_fmap imap HazardAlerts.fallbackAlerts HazardAlerts.alerts
       HazardAlerts.card HazardAlerts.cardTime HazardAlerts.timestamp compose].
  pose proof (Hfetch 0%nat ltac:(lia)). pose proof (Hfetch 1%nat ltac:(lia)).
  pose proof (Hfetch 2%nat ltac:(lia)). pose proof (Hfetch 3%nat ltac:(lia)).
  pose proof (Hrender 0%nat ltac:(lia)). pose proof (Hrender 1%nat ltac:(lia)).
  pose proof (Hrender 2%nat ltac:(lia)). pose proof (Hrender 3%nat ltac:(lia)).
  rewrite (getTimeAgo_minutes _ _ _ _ 2), (getTimeAgo_minutes _ _ _ _ 5),
    (getTimeAgo_minutes _ _ _ _ 10), (getTimeAgo_minutes _ _ _ _ 15);
    rewrite ?getTimeISO_toISOString; try lia.
  reflexivity.
Qed.

Lemma fallback_cards_witness :
  ∃ cards,
    HazardAlerts.view JS.getTimeISO (λ _, "11/14/2023")
      (λ k, 1700000000250 + Z.of_nat k)
      (HazardAlerts.fetchAlerts (λ k, 1700000000000 + Z.of_nat k)
         (Rejected (AxiosError (Some "ECONNABORTED")))
         HazardAlerts.initialState).2
    = HazardAlerts.AlertsView "4 active alerts" (Some cards)
    ∧ HazardAlerts.cardTime <$> cards
      = ["2m ago"; "5m ago"; "10m ago"; "15m ago"].
Proof.
  destruct (fallback_cards (λ k, 1700000000000 + Z.of_nat k)
              (λ k, 1700000000250 + Z.of_nat k)
              (AxiosError (Some "ECONNABORTED")) HazardAlerts.initialState
              (λ _, "11/14/2023"))
    as (cards & Hview & _ & Htime & _).
  - intros k Hk. lia.
  - intros k Hk. lia.
  - exists cards. split; assumption.
Defined.

(** ** The severity switch and the severity classifier *)

(** X3. On the three severities of an alert record the exact-match
    [switch] of the alert pages picks the colours the substring classifier
    of the dashboard picks; the switch answers High for the string "High"
    alone and Medium for "Medium" alone, so whenever it answers High or
    Medium the classifier agrees, while "HIGH" is Low for the switch and
    High for the classifier. *)
Theorem severity_switch_and_classifier :
  (∀ s : Severity,
     HazardAlerts.getSeverityColor (severityString s)
     = Dashboard.getRiskColor (severityString s)
     ∧ HazardAlerts.getSeverityBadge (severityString s)
       = Dashboard.getRiskBadgeColor (severityString s)
     ∧ AlertHistory.getSeverityColor (severityString s)
       = match s with
         | High => "text-red-400"
         | Medium => "text-orange-400"
         | Low => "text-green-400"
         end)
  ∧ (∀ severity : string,
       (HazardAlerts.getSeverityColor severity = Dashboard.riskColorOf CatHigh
        ↔ severity = "High")
       ∧ (HazardAlerts.getSeverityColor severity = Dashboard.riskColorOf CatMedium
          ↔ severity = "Medium")
       ∧ (HazardAlerts.getSeverityColor severity = Dashboard.riskColorOf CatLow
          ↔ severity ≠ "High" ∧ severity ≠ "Medium"))
  ∧ (∀ severity : string,
       HazardAlerts.getSeverityColor severity ≠ Dashboard.riskColorOf CatLow →
       Dashboard.getRiskColor severity = HazardAlerts.getSeverityColor severity)
  ∧ HazardAlerts.getSeverityColor "HIGH" = Dashboard.riskColorOf CatLow
  ∧ Dashboard.getRiskColor "HIGH" = Dashboard.riskColorOf CatHigh.
Proof.
  split. { by intros []. }
  split.
  { intros severity. unfold HazardAlerts.getSeverityColor.
    destruct (bool_decide_reflect (severity = "High")) as [->|Hh].
    { repeat split; try done; intros []; done. }
    destruct (bool_decide_reflect (severity = "Medium")) as [->|Hm].
    { repeat split; try done; intros []; done. }
    repeat split; try done. }
  split; [|done].
  intros severity. unfold HazardAlerts.getSeverityColor.
  destruct (bool_decide_reflect (severity = "High")) as [->|Hh]; [done|].
  destruct (bool_decide_reflect (severity = "Medium")) as [->|Hm]; done.
Qed.

(** ** The alert list after polls *)

Lemma HazardAlerts_afterPolls_snoc polls clock response :
  HazardAlerts.afterPolls (polls ++ [(clock, response)])
  = {| HazardAlerts.alerts :=
         match response with
         | Fulfilled data => data
         | Rejected _ => HazardAlerts.fallbackAlerts clock
         end;
       HazardAlerts.loading := false |}.
Proof.
  unfold HazardAlerts.afterPolls. rewrite foldl_app. simpl.
  by destruct response.
Qed.

(** X4. Every completed poll replaces the alert list wholesale: it is the
    decoded response, or the fallback list of that poll, whatever was shown
    before, and the loading screen is gone.  An empty response shows "0
    active alerts" with the "No Active Alerts" panel, a single alert shows
    "1 active alert", and a longer list is shown with one card per alert
    and a plural count. *)
Theorem alerts_after_polls (getTime : string → Z)
    (toLocaleDateString : Z → string) (renderClock : nat → Z)
    (polls : list ((nat → Z) * Settled (list HazardAlerts.Alert)))
    (clock : nat → Z) :
  (∀ response,
     HazardAlerts.afterPolls (polls ++ [(clock, response)])
     = {| HazardAlerts.alerts :=
            match response with
            | Fulfilled data => data
            | Rejected _ => HazardAlerts.fallbackAlerts clock
            end;
          HazardAlerts.loading := false |})
  ∧ HazardAlerts.view getTime toLocaleDateString renderClock
      (HazardAlerts.afterPolls []) = HazardAlerts.LoadingView
  ∧ HazardAlerts.view getTime toLocaleDateString renderClock
      (HazardAlerts.afterPolls (polls ++ [(clock, Fulfilled [])]))
    = HazardAlerts.AlertsView "0 active alerts" None
  ∧ (∀ alert,
       HazardAlerts.view getTime toLocaleDateString renderClock
         (HazardAlerts.afterPolls (polls ++ [(clock, Fulfilled [alert])]))
       = HazardAlerts.AlertsView "1 active alert"
           (Some [HazardAlerts.card getTime toLocaleDateString
                    (renderClock 0%nat) alert]))
  ∧ (∀ a1 a2 data,
       ∃ cards,
         HazardAlerts.view getTime toLocaleDateString renderClock
           (HazardAlerts.afterPolls
              (polls ++ [(clock, Fulfilled (a1 :: a2 :: data))]))
         = HazardAlerts.AlertsView
             (JS.Number_toString (Z.of_nat (length (a1 :: a2 :: data)))
              +:+ " active alerts")
             (Some cards)
         ∧ length cards = length (a1 :: a2 :: data)
         ∧ HazardAlerts.cardKey <$> cards
           = HazardAlerts.id <$> (a1 :: a2 :: data)).
Proof.
  split. { intros response. apply HazardAlerts_afterPolls_snoc. }
  split; [done|].
  split. { by rewrite HazardAlerts_afterPolls_snoc. }
  split. { intros alert. by rewrite HazardAlerts_afterPolls_snoc. }
  intros a1 a2 data. rewrite HazardAlerts_afterPolls_snoc.
  eexists. split; [reflexivity|].
  split. { by rewrite length_imap. }
  generalize (a1 :: a2 :: data). intros l. generalize renderClock.
  induction l as [|a l IH]; intros rc; [done|].
  simpl. f_equal. apply (IH (rc ∘ S)).
Qed.

(** ** The dashboard after polls *)

Lemma Dashboard_afterPolls_snoc polls now response :
  Dashboard.hazard (Dashboard.afterPolls (polls ++ [(now, response)]))
  = Some match response with
         | Fulfilled data => data
         | Rejected _ =>
             {| Dashboard.type := "Smoke Detected";
                Dashboard.risk_level := "High";
                Dashboard.location := "Module A-12";
                Dashboard.timestamp := JS.toISOString now;
                Dashboard.confidence := Some 92 |}
         end
  ∧ Dashboard.loading (Dashboard.afterPolls (polls ++ [(now, response)])) = false.
Proof.
  unfold Dashboard.afterPolls. rewrite foldl_app. simpl.
  destruct response as [data|err]; [done|].
  apply fetchData_hazard_fallback.
Qed.

(** X5. Every completed poll replaces the snapshot wholesale, by the decoded
    response or by the fallback of that poll.  The dashboard shows the
    loading screen until the first poll completes and the detection card
    ever after: the all-clear panel is never shown. *)
Theorem dashboard_after_polls :
  (∀ polls now response,
     Dashboard.view (Dashboard.afterPolls (polls ++ [(now, response)]))
     = Dashboard.DetectionView
         match response with
         | Fulfilled data => data
         | Rejected _ =>
             {| Dashboard.type := "Smoke Detected";
                Dashboard.risk_level := "High";
                Dashboard.location := "Module A-12";
                Dashboard.timestamp := JS.toISOString now;
                Dashboard.confidence := Some 92 |}
         end)
  ∧ (∀ polls, Dashboard.view (Dashboard.afterPolls polls) = Dashboard.LoadingView
              ↔ polls = [])
  ∧ (∀ polls, Dashboard.view (Dashboard.afterPolls polls) ≠ Dashboard.AllClearView).
Proof.
  assert (∀ polls now response,
            Dashboard.view (Dashboard.afterPolls (polls ++ [(now, response)]))
            = Dashboard.DetectionView
                match response with
                | Fulfilled data => data
                | Rejected _ =>
                    {| Dashboard.type := "Smoke Detected";
                       Dashboard.risk_level := "High";
                       Dashboard.location := "Module A-12";
                       Dashboard.timestamp := JS.toISOString now;
                       Dashboard.confidence := Some 92 |}
                end) as Hsnoc.
  { intros polls now response.
    destruct (Dashboard_afterPolls_snoc polls now response) as [Hh Hl].
    unfold Dashboard.view. by rewrite Hl, Hh. }
  split; [exact Hsnoc|].
  split.
  - intros polls. destruct polls as [|p polls _] using rev_ind; [done|].
    destruct p as [now response]. rewrite Hsnoc.
    split; [done|]. intros [_ Hnil]%app_eq_nil. discriminate Hnil.
  - intros polls. destruct polls as [|p polls _] using rev_ind; [done|].
    destruct p as [now response]. by rewrite Hsnoc.
Qed.

(** ** The sort column headers *)

(** X6. After a click on a column header that column, and no other,
    carries the sort icon: the down chevron, unless the column was already
    the sort field with order desc, in which case the up chevron. *)
Theorem SortIcon_after_click (s : AlertHistory.State)
    (field other : AlertHistory.SortField) :
  AlertHistory.SortIcon (AlertHistory.click s field) field
  = Some (if decide (AlertHistory.sortField s = field
                     ∧ AlertHistory.sortOrder s = AlertHistory.Desc)
          then AlertHistory.ChevronUp else AlertHistory.ChevronDown)
  ∧ (AlertHistory.SortIcon (AlertHistory.click s field) other = None
     ↔ other ≠ field).
Proof. by destruct s as [[] []], field, other. Qed.

(** X7. Clicking the active column twice restores the selection, on any
    column a third click undoes the second, and every selection is reached
    from the default one by at most two clicks. *)
Theorem click_cycles :
  (∀ f o,
     AlertHistory.click
       (AlertHistory.click
          {| AlertHistory.sortField := f; AlertHistory.sortOrder := o |} f) f
     = {| AlertHistory.sortField := f; AlertHistory.sortOrder := o |})
  ∧ (∀ s f,
       AlertHistory.click
         (AlertHistory.click (AlertHistory.click s f) f) f
       = AlertHistory.click s f)
  ∧ (∀ s, ∃ clicks,
       (length clicks ≤ 2)%nat
       ∧ foldl AlertHistory.click AlertHistory.initialState clicks = s).
Proof.
  split. { by intros [] []. }
  split. { by intros [[] []] []. }
  intros [f o].
  destruct f, o;
    [ exists [AlertHistory.ByTimestamp]
    | exists []
    | exists [AlertHistory.BySeverity; AlertHistory.BySeverity]
    | exists [AlertHistory.BySeverity]
    | exists [AlertHistory.ByType; AlertHistory.ByType]
    | exists [AlertHistory.ByType] ]; split; simpl; (lia || done).
Qed.

(** ** More on sorting *)

(** X8. Whatever the runtime's date parsing and collation, the sorted
    table has the rows of the alert list, each as often: the same number of
    rows, the same ids, and ids free of duplicates exactly when those of the
    list are. *)
Theorem sorted_keeps_rows (getTime : string → Z)
    (localeCompare : string → string → Z) (s : AlertHistory.State)
    (l : list AlertHistory.HistoricalAlert) :
  AlertHistory.sorted getTime localeCompare s l ≡ₚ l
  ∧ length (AlertHistory.sorted getTime localeCompare s l) = length l
  ∧ AlertHistory.id <$> AlertHistory.sorted getTime localeCompare s l
    ≡ₚ AlertHistory.id <$> l
  ∧ (NoDup (AlertHistory.id <$> AlertHistory.sorted getTime localeCompare s l)
     ↔ NoDup (AlertHistory.id <$> l)).
Proof.
  pose proof (Array_sort_perm (AlertHistory.comparator getTime localeCompare s) l)
    as Hperm.
  unfold AlertHistory.sorted.
  split; [done|]. split; [by rewrite Hperm|]. split; by rewrite Hperm.
Qed.

Lemma StronglySorted_weaken {A} (R R' : A → A → Prop) l :
  (∀ a b, R a b → R' a b) → StronglySorted R l → StronglySorted R' l.
Proof.
  intros HR. induction 1 as [|x l Hs IH Hx]; constructor; [done|].
  eapply Forall_impl; [exact Hx|]. intros b. apply HR.
Qed.

Section ReversedInput.
Context {A : Type} (cmp : A → A → Z) `{!ConsistentComparator cmp}.

(** Sorting the reversed list is reversing the list sorted by the negated
    comparator. *)
Lemma Array_sort_reverse l :
  JS.Array_sort cmp (reverse l) = reverse (JS.Array_sort (λ a b, - cmp a b) l).
Proof.
  pose proof (negated_consistent cmp) as Hneg.
  symmetry. apply (stable_sort_unique cmp).
  - apply (StronglySorted_weaken (λ a b, - - cmp a b ≤ 0)); [intros a b; lia|].
    apply (reverse_sorted_negated (λ a b, - cmp a b)).
    apply (Array_sort_sorted (λ a b, - cmp a b)).
  - intros x. rewrite !filter_reverse. f_equal.
    rewrite <- (list_filter_iff (λ z, - cmp x z = 0) (λ z, cmp x z = 0))
      by (intros z; lia).
    rewrite (Array_sort_stable (λ a b, - cmp a b)).
    apply list_filter_iff. intros z. lia.
Qed.

End ReversedInput.

Section SortedReversed.
Context (getTime : string → Z) (localeCompare : string → string → Z).
Context `{!ConsistentComparator localeCompare}.

(** X9. Ascending and descending order mirror each other, ties included:
    sorting the reversed list ascending gives the reverse of the list sorted
    descending, and the other way round. *)
Theorem sorted_of_reversed (field : AlertHistory.SortField)
    (l : list AlertHistory.HistoricalAlert) :
  AlertHistory.sorted getTime localeCompare
    {| AlertHistory.sortField := field; AlertHistory.sortOrder := AlertHistory.Asc |}
    (reverse l)
  = reverse (AlertHistory.sorted getTime localeCompare
      {| AlertHistory.sortField := field;
         AlertHistory.sortOrder := AlertHistory.Desc |} l)
  ∧ AlertHistory.sorted getTime localeCompare
      {| AlertHistory.sortField := field;
         AlertHistory.sortOrder := AlertHistory.Desc |}
      (reverse l)
    = reverse (AlertHistory.sorted getTime localeCompare
        {| AlertHistory.sortField := field;
           AlertHistory.sortOrder := AlertHistory.Asc |} l).
Proof.
  pose proof (compareValue_consistent getTime localeCompare field) as Hc.
  split.
  - apply (Array_sort_reverse
             (AlertHistory.compareValue getTime localeCompare field)).
  - rewrite <- (reverse_involutive l) at 2.
    rewrite (Array_sort_reverse
               (AlertHistory.compareValue getTime localeCompare field)
               (reverse l)) at 1.
    by rewrite reverse_involutive.
Qed.

End SortedReversed.

Lemma sorted_of_reversed_witness :
  ConsistentComparator JS.ordinalCompare
  ∧ AlertHistory.id <$>
      AlertHistory.sorted JS.getTimeISO JS.ordinalCompare
        {| AlertHistory.sortField := AlertHistory.BySeverity;
           AlertHistory.sortOrder := AlertHistory.Asc |}
        (reverse (AlertHistory.alerts (λ _, 1700000000000)))
    = reverse ["1"; "2"; "4"; "3"; "6"; "5"].
Proof.
  split; [exact ordinalCompare_consistent|].
  rewrite (proj1 (@sorted_of_reversed JS.getTimeISO JS.ordinalCompare
                    ordinalCompare_consistent AlertHistory.BySeverity
                    (AlertHistory.alerts (λ _, 1700000000000)))).
  reflexivity.
Defined.

Section StrictlyDescending.
Context {A : Type} (cmp : A → A → Z).

Lemma sortInsert_last x l :
  Forall (λ y, 0 < cmp x y) l → JS.sortInsert cmp x l = l ++ [x].
Proof.
  induction 1 as [|y l Hy _ IH]; simpl; [done|].
  destruct (Z.leb_spec (cmp x y) 0); [lia|]. by rewrite IH.
Qed.

(** A list in which every record comes strictly after all the later ones
    is sorted by reversing it. *)
Lemma Array_sort_strictly_descending l :
  StronglySorted (λ a b, 0 < cmp a b) l → JS.Array_sort cmp l = reverse l.
Proof.
  induction 1 as [|x l Hs IH Hx]; simpl; [done|].
  rewrite IH, reverse_cons. apply sortInsert_last.
  by apply Forall_reverse.
Qed.

End StrictlyDescending.

(** ** The mock history as it is shown *)

(** X10. The history page lists its mock alerts newest first: with the
    default selection (timestamp, desc) the table shows them in the order
    of the source, ids "1" to "6", and after one click on the time column
    in the reverse order.  The six clock readings of a render lie within
    two hours of one another, between 1970-01-02 and the year 9999. *)
Theorem mock_history_order (clock : nat → Z)
    (localeCompare : string → string → Z) :
  (∀ k, (k < 6)%nat → 86400000 ≤ clock k < 253402300800000) →
  (∀ i j, (i < 6)%nat → (j < 6)%nat → clock i - clock j < 7200000) →
  AlertHistory.sorted JS.getTimeISO localeCompare AlertHistory.initialState
    (AlertHistory.alerts clock)
  = AlertHistory.alerts clock
  ∧ AlertHistory.sorted JS.getTimeISO localeCompare
      (AlertHistory.click AlertHistory.initialState AlertHistory.ByTimestamp)
      (AlertHistory.alerts clock)
    = reverse (AlertHistory.alerts clock)
  ∧ AlertHistory.id <$> AlertHistory.alerts clock
    = ["1"; "2"; "3"; "4"; "5"; "6"].
Proof.
  intros Hrange Hnear.
  pose proof (Hrange 0%nat ltac:(lia)). pose proof (Hrange 1%nat ltac:(lia)). pose proof (Hrange 2%nat ltac:(lia)).
  pose proof (Hrange 3%nat ltac:(lia)). pose proof (Hrange 4%nat ltac:(lia)). pose proof (Hrange 5%nat ltac:(lia)).
  pose proof (Hnear 1%nat 0%nat ltac:(lia) ltac:(lia)). pose proof (Hnear 2%nat 0%nat ltac:(lia) ltac:(lia)).
  pose proof (Hnear 3%nat 0%nat ltac:(lia) ltac:(lia)). pose proof (Hnear 4%nat 0%nat ltac:(lia) ltac:(lia)).
  pose proof (Hnear 5%nat 0%nat ltac:(lia) ltac:(lia)). pose proof (Hnear 2%nat 1%nat ltac:(lia) ltac:(lia)).
  pose proof (Hnear 3%nat 1%nat ltac:(lia) ltac:(lia)). pose proof (Hnear 4%nat 1%nat ltac:(lia) ltac:(lia)).
  pose proof (Hnear 5%nat 1%nat ltac:(lia) ltac:(lia)). pose proof (Hnear 3%nat 2%nat ltac:(lia) ltac:(lia)).
  pose proof (Hnear 4%nat 2%nat ltac:(lia) ltac:(lia)). pose proof (Hnear 5%nat 2%nat ltac:(lia) ltac:(lia)).
  pose proof (Hnear 4%nat 3%nat ltac:(lia) ltac:(lia)). pose proof (Hnear 5%nat 3%nat ltac:(lia) ltac:(lia)).
  pose proof (Hnear 5%nat 4%nat ltac:(lia) ltac:(lia)).
  change (AlertHistory.click AlertHistory.initialState AlertHistory.ByTimestamp)
    with {| AlertHistory.sortField := AlertHistory.ByTimestamp;
            AlertHistory.sortOrder := AlertHistory.Asc |}.
  unfold AlertHistory.initialState.
  split; [|split; [|reflexivity]].
  - apply Array_sort_sorted_id.
    unfold AlertHistory.alerts.
    repeat match goal with
           | |- StronglySorted _ _ => constructor
           | |- Forall _ _ => constructor
           end;
      unfold AlertHistory.comparator, AlertHistory.compareValue;
      cbn [AlertHistory.timestamp AlertHistory.sortField AlertHistory.sortOrder];
      try case_decide; try done;
      rewrite !getTimeISO_toISOString by lia; lia.
  - apply Array_sort_strictly_descending.
    unfold AlertHistory.alerts.
    repeat match goal with
           | |- StronglySorted _ _ => constructor
           | |- Forall _ _ => constructor
           end;
      unfold AlertHistory.comparator, AlertHistory.compareValue;
      cbn [AlertHistory.timestamp AlertHistory.sortField AlertHistory.sortOrder];
      try case_decide; try done;
      rewrite !getTimeISO_toISOString by lia; lia.
Qed.

Lemma mock_history_order_witness :
  AlertHistory.id <$>
    AlertHistory.sorted JS.getTimeISO JS.ordinalCompare
      (AlertHistory.click AlertHistory.initialState AlertHistory.ByTimestamp)
      (AlertHistory.alerts (λ k, 1700000000000 + Z.of_nat k))
  = ["6"; "5"; "4"; "3"; "2"; "1"].
Proof.
  rewrite (proj1 (proj2 (mock_history_order (λ k, 1700000000000 + Z.of_nat k)
                           JS.ordinalCompare ltac:(intros k Hk; lia)
                           ltac:(intros i j Hi Hj; lia)))).
  reflexivity.
Defined.

(** ** Navigation *)

Lemma active_items_of_nav_item item :
  item ∈ Layout.navItems →
  filter (λ it, Layout.isActive item.1 it = true) Layout.navItems = [item].
Proof.
  unfold Layout.navItems. rewrite !elem_of_cons, elem_of_nil.
  intros [->|[->|[->|[->|[->|[]]]]]]; reflexivity.
Qed.

Lemma navigate_keeps_nav_item clicks s :
  Forall (λ click, click.2 ∈ Layout.navItems) clicks →
  (∃ item, item ∈ Layout.navItems ∧ Layout.currentPage s = item.1) →
  ∃ item, item ∈ Layout.navItems
          ∧ Layout.currentPage (foldl Layout.navigate s clicks) = item.1.
Proof.
  intros Hclicks. revert s.
  induction Hclicks as [|click clicks Hin _ IH]; intros s Hs; [done|].
  simpl. apply IH. by exists click.2.
Qed.

(** X11. Whatever entries of the navigation are clicked, at whatever window
    width, exactly one entry is highlighted and the page shown is the one of
    that entry; the five entries open five different pages.  A page id that
    is no entry's shows the dashboard with no entry highlighted. *)
Theorem navigation_highlight (clicks : list (Z * (string * string))) :
  Forall (λ click, click.2 ∈ Layout.navItems) clicks →
  (∃ item,
     item ∈ Layout.navItems
     ∧ filter (λ it, Layout.isActive
                       (Layout.currentPage
                          (foldl Layout.navigate Layout.initialState clicks)) it
                     = true)
         Layout.navItems
       = [item]
     ∧ App.renderPage
         (Layout.currentPage (foldl Layout.navigate Layout.initialState clicks))
       = App.renderPage item.1)
  ∧ (App.renderPage ∘ fst) <$> Layout.navItems
    = [App.DashboardPage; App.LiveMonitoringPage; App.HazardAlertsPage;
       App.AlertHistoryPage; App.SystemOverviewPage]
  ∧ (∀ page : string,
       page ∉ fst <$> Layout.navItems →
       App.renderPage page = App.DashboardPage
       ∧ filter (λ it, Layout.isActive page it = true) Layout.navItems = []).
Proof.
  intros Hclicks. split; [|split; [reflexivity|]].
  - destruct (navigate_keeps_nav_item clicks Layout.initialState Hclicks)
      as (item & Hin & Hpage).
    { exists ("dashboard", "Dashboard"). split; [left|done]. }
    exists item. rewrite Hpage. split; [done|]. split; [|done].
    by apply active_items_of_nav_item.
  - intros page Hpage. unfold Layout.navItems in *. simpl in Hpage.
    rewrite !not_elem_of_cons in Hpage.
    destruct Hpage as (H1 & H2 & H3 & H4 & H5 & _).
    unfold App.renderPage, Layout.isActive.
    rewrite !filter_cons, filter_nil. simpl.
    rewrite !bool_decide_eq_false_2 by done. done.
Qed.

Lemma navigation_highlight_witness :
  ∃ item,
    filter (λ it, Layout.isActive
                    (Layout.currentPage
                       (foldl Layout.navigate Layout.initialState
                          [(800, ("history", "Alert History"));
                           (1440, ("alerts", "Hazard Alerts"))])) it
                  = true)
      Layout.navItems
    = [item]
    ∧ App.renderPage item.1 = App.HazardAlertsPage.
Proof.
  destruct (navigation_highlight
              [(800, ("history", "Alert History"));
               (1440, ("alerts", "Hazard Alerts"))])
    as [(item & Hin & Hactive & Hpage) _].
  - repeat constructor.
  - exists item. split; [exact Hactive|]. rewrite <- Hpage. reflexivity.
Defined.

(** ** The detection timer of the live view *)

(** Rewriting the sets of timeouts the steps build. *)
Ltac timer_sets :=
  simpl; rewrite ?difference_diag_L, ?empty_difference_L, ?(right_id_L ∅ (∪));
  try done.

Lemma timersTracked_mount : LiveMonitoring.timersTracked LiveMonitoring.mount.
Proof. exists 0%nat. split; [done|]. split; [simpl; lia|]. simpl. by timer_sets. Qed.

Lemma timersTracked_step s e :
  LiveMonitoring.timersTracked s →
  LiveMonitoring.timersTracked (LiveMonitoring.step s e).
Proof.
  intros (t & Ht & Hlt & Hts). destruct s as [m sc cf det ts tm nx].
  simpl in Ht, Hlt, Hts. subst tm.
  destruct e as [sc'|t' frame|]; unfold LiveMonitoring.step; simpl.
  - destruct m; simpl; [|by exists t].
    destruct (bool_decide (sc' = sc)); simpl; [by exists t|].
    exists nx. split; [done|]. split; [simpl; lia|].
    simpl. destruct det; subst ts; by timer_sets.
  - destruct (decide (t' ∈ ts)) as [Hin|]; [|by exists t].
    exists t. split; [done|]. split; [done|]. simpl. rewrite andb_false_r.
    destruct (m && det); subst ts; [|by timer_sets].
    apply elem_of_singleton in Hin as ->. by timer_sets.
  - destruct m; [|by exists t].
    exists t. split; [done|]. split; [done|].
    simpl. destruct det; subst ts; by timer_sets.
Qed.

Lemma timersTracked_run events :
  LiveMonitoring.timersTracked (LiveMonitoring.run events).
Proof.
  unfold LiveMonitoring.run.
  induction events as [|e events IH] using rev_ind; [apply timersTracked_mount|].
  rewrite foldl_app. simpl. by apply timersTracked_step.
Qed.

(** X12. However scenarios are selected, timeouts fire and the view is
    left, at most one detection timeout is set at any time, the one of the
    effect in place; while the view is mounted the "HAZARD DETECTED"
    indicator is on exactly while that timeout is set, and once the view is
    unmounted no timeout is left behind. *)
Theorem detection_timer_tracked (events : list LiveMonitoring.Event) :
  (size (LiveMonitoring.timers (LiveMonitoring.run events)) ≤ 1)%nat
  ∧ (LiveMonitoring.mounted (LiveMonitoring.run events) = true →
     (LiveMonitoring.isDetecting (LiveMonitoring.run events) = true
      ↔ LiveMonitoring.timers (LiveMonitoring.run events) ≠ ∅))
  ∧ (LiveMonitoring.mounted (LiveMonitoring.run events) = false →
     LiveMonitoring.timers (LiveMonitoring.run events) = ∅)
  ∧ (∀ t, t ∈ LiveMonitoring.timers (LiveMonitoring.run events) →
          LiveMonitoring.timer (LiveMonitoring.run events) = Some t).
Proof.
  destruct (timersTracked_run events) as (t & Ht & _ & Hts).
  rewrite Hts, Ht.
  destruct (LiveMonitoring.mounted (LiveMonitoring.run events)),
    (LiveMonitoring.isDetecting (LiveMonitoring.run events)); cbn [andb].
  - split; [by rewrite size_singleton|]. split; [|split; [done|]].
    + intros _. split; [|done]. intros _ Hempty.
      apply (not_elem_of_empty (C := gset nat) t). rewrite <- Hempty.
      by apply elem_of_singleton.
    + intros u Hu. apply elem_of_singleton in Hu. by rewrite Hu.
  - split; [rewrite size_empty; lia|]. split; [|split; [done|]].
    + intros _. split; [done|]. by intros [].
    + by intros u Hu%not_elem_of_empty.
  - split; [rewrite size_empty; lia|]. split; [done|]. split; [done|].
    by intros u Hu%not_elem_of_empty.
  - split; [rewrite size_empty; lia|]. split; [done|]. split; [done|].
    by intros u Hu%not_elem_of_empty.
Qed.

(** X13. A selection that changes the scenario supersedes the detection
    under way: the indicator is on, and the timeout set before can no
    longer fire, so no frame is captured for the scenario that was left.
    Selecting the scenario already shown changes nothing, and a captured
    frame is never cleared. *)
Theorem selection_supersedes (events : list LiveMonitoring.Event) :
  (∀ sc t frame,
     LiveMonitoring.mounted (LiveMonitoring.run events) = true →
     sc ≠ LiveMonitoring.selectedScenario (LiveMonitoring.run events) →
     t ∈ LiveMonitoring.timers (LiveMonitoring.run events) →
     LiveMonitoring.isDetecting
       (LiveMonitoring.run (events ++ [LiveMonitoring.Select sc])) = true
     ∧ LiveMonitoring.selectedScenario
         (LiveMonitoring.run (events ++ [LiveMonitoring.Select sc])) = sc
     ∧ LiveMonitoring.run
         (events ++ [LiveMonitoring.Select sc; LiveMonitoring.Fire t frame])
       = LiveMonitoring.run (events ++ [LiveMonitoring.Select sc]))
  ∧ LiveMonitoring.run
      (events ++ [LiveMonitoring.Select
                    (LiveMonitoring.selectedScenario (LiveMonitoring.run events))])
    = LiveMonitoring.run events
  ∧ (∀ e, is_Some (LiveMonitoring.capturedFrame (LiveMonitoring.run events)) →
          is_Some (LiveMonitoring.capturedFrame
                     (LiveMonitoring.run (events ++ [e])))).
Proof.
  destruct (timersTracked_run events) as (t0 & Ht0 & Hlt & Hts).
  unfold LiveMonitoring.run in *. setoid_rewrite foldl_app.
  set (s := foldl LiveMonitoring.step LiveMonitoring.mount events) in *.
  destruct s as [m sc0 cf det ts tm nx]. simpl in Ht0, Hlt, Hts. subst tm.
  split; [|split].
  - intros sc t frame Hm Hsc Ht. simpl in Hm, Hsc, Ht. subst m.
    cbn [foldl]. unfold LiveMonitoring.step.
    cbn [LiveMonitoring.mounted LiveMonitoring.selectedScenario andb].
    rewrite bool_decide_eq_false_2 by done. cbn [negb].
    unfold LiveMonitoring.effect, LiveMonitoring.cleanup.
    cbn [LiveMonitoring.mounted LiveMonitoring.selectedScenario
         LiveMonitoring.isDetecting LiveMonitoring.timers LiveMonitoring.timer
         LiveMonitoring.nextTimer LiveMonitoring.capturedFrame].
    split; [done|]. split; [done|].
    destruct det; cbn [andb] in Hts; subst ts;
      [|by apply not_elem_of_empty in Ht].
    apply elem_of_singleton in Ht as ->.
    rewrite difference_diag_L, (right_id_L ∅ (∪)).
    rewrite decide_False; [done|].
    rewrite elem_of_singleton. lia.
  - cbn [foldl]. unfold LiveMonitoring.step.
    cbn [LiveMonitoring.selectedScenario].
    rewrite bool_decide_eq_true_2 by done. by rewrite andb_false_r.
  - intros e [f Hf]. simpl in Hf. subst cf.
    destruct e as [sc'|t' [frame|]|]; simpl; unfold LiveMonitoring.step; simpl;
      repeat case_match; by eexists.
Qed.

Lemma selection_supersedes_witness :
  LiveMonitoring.run [LiveMonitoring.Select LiveMonitoring.fire;
                      LiveMonitoring.Fire 0%nat (Some "data:image/jpeg;base64,AA")]
  = LiveMonitoring.run [LiveMonitoring.Select LiveMonitoring.fire]
  ∧ LiveMonitoring.capturedFrame
      (LiveMonitoring.run
         [LiveMonitoring.Select LiveMonitoring.fire;
          LiveMonitoring.Fire 0%nat (Some "data:image/jpeg;base64,AA")])
    = None.
Proof.
  split; [|reflexivity].
  apply (proj1 (selection_supersedes []) LiveMonitoring.fire 0%nat
           (Some "data:image/jpeg;base64,AA")).
  - reflexivity.
  - discriminate.
  - apply elem_of_union_l. by apply elem_of_singleton.
Defined.

Lemma getTimeAgo_ranges_witness :
  HazardAlerts.getTimeAgo JS.getTimeISO (λ _, "11/14/2023") 1700000000000
    "2023-11-14T20:13:20.000Z"
  = "2h ago".
Proof.
  destruct (proj1 (proj2 (proj2
    (getTimeAgo_ranges JS.getTimeISO (λ _, "11/14/2023") 1700000000000
       "2023-11-14T20:13:20.000Z")))) as [Hlabel _].
  - vm_compute. split; [intros H; discriminate H|reflexivity].
  - rewrite Hlabel. reflexivity.
Defined.

(** ** The checklist by keyword *)

(** X14. Which checklist a hazard type gets, by the keywords occurring in
    its lowercase form: the fire checklist exactly when "fire" occurs; the
    smoke checklist exactly when "smoke" occurs and "fire" does not; and so
    on down the categories; the generic checklist exactly when none of the
    eight keywords occurs. *)
Theorem checklist_by_keywords (type : string) :
  (SafetyResponsePanel.getSafetyActions type = SafetyResponsePanel.fireActions
   ↔ Contains (JS.toLowerCase type) "fire")
  ∧ (SafetyResponsePanel.getSafetyActions type = SafetyResponsePanel.smokeActions
     ↔ ¬ Contains (JS.toLowerCase type) "fire"
       ∧ Contains (JS.toLowerCase type) "smoke")
  ∧ (SafetyResponsePanel.getSafetyActions type
     = SafetyResponsePanel.electricalActions
     ↔ ¬ Contains (JS.toLowerCase type) "fire"
       ∧ ¬ Contains (JS.toLowerCase type) "smoke"
       ∧ (Contains (JS.toLowerCase type) "electrical"
          ∨ Contains (JS.toLowerCase type) "spark"))
  ∧ (SafetyResponsePanel.getSafetyActions type = SafetyResponsePanel.gasActions
     ↔ ¬ Contains (JS.toLowerCase type) "fire"
       ∧ ¬ Contains (JS.toLowerCase type) "smoke"
       ∧ ¬ (Contains (JS.toLowerCase type) "electrical"
            ∨ Contains (JS.toLowerCase type) "spark")
       ∧ (Contains (JS.toLowerCase type) "gas"
          ∨ Contains (JS.toLowerCase type) "leak"))
  ∧ (SafetyResponsePanel.getSafetyActions type
     = SafetyResponsePanel.overheatActions
     ↔ ¬ Contains (JS.toLowerCase type) "fire"
       ∧ ¬ Contains (JS.toLowerCase type) "smoke"
       ∧ ¬ (Contains (JS.toLowerCase type) "electrical"
            ∨ Contains (JS.toLowerCase type) "spark")
       ∧ ¬ (Contains (JS.toLowerCase type) "gas"
            ∨ Contains (JS.toLowerCase type) "leak")
       ∧ (Contains (JS.toLowerCase type) "overheat"
          ∨ Contains (JS.toLowerCase type) "temperature"))
  ∧ (SafetyResponsePanel.getSafetyActions type = SafetyResponsePanel.genericActions
     ↔ ¬ Contains (JS.toLowerCase type) "fire"
       ∧ ¬ Contains (JS.toLowerCase type) "smoke"
       ∧ ¬ (Contains (JS.toLowerCase type) "electrical"
            ∨ Contains (JS.toLowerCase type) "spark")
       ∧ ¬ (Contains (JS.toLowerCase type) "gas"
            ∨ Contains (JS.toLowerCase type) "leak")
       ∧ ¬ (Contains (JS.toLowerCase type) "overheat"
            ∨ Contains (JS.toLowerCase type) "temperature"))
  ∧ (5 ≤ length (SafetyResponsePanel.getSafetyActions type) ≤ 6)%nat.
Proof.
  unfold SafetyResponsePanel.getSafetyActions.
  set (l := JS.toLowerCase type).
  destruct (JS.includes l "fire") eqn:H1;
    [apply includes_spec in H1|apply includes_false in H1].
  { repeat split; try done; try tauto; simpl; lia. }
  destruct (JS.includes l "smoke") eqn:H2;
    [apply includes_spec in H2|apply includes_false in H2].
  { repeat split; try done; try tauto; simpl; lia. }
  destruct (JS.includes l "electrical" || JS.includes l "spark") eqn:H3;
    [apply includes_either in H3|apply includes_neither in H3].
  { repeat split; try done; try tauto; simpl; lia. }
  destruct (JS.includes l "gas" || JS.includes l "leak") eqn:H4;
    [apply includes_either in H4|apply includes_neither in H4].
  { repeat split; try done; try tauto; simpl; lia. }
  destruct (JS.includes l "overheat" || JS.includes l "temperature") eqn:H5;
    [apply includes_either in H5|apply includes_neither in H5].
  { repeat split; try done; try tauto; simpl; lia. }
  repeat split; try done; try tauto; simpl; lia.
Qed.

(** ** Letter case *)

Lemma lowerChar_upperChar c : JS.lowerChar (JS.upperChar c) = JS.lowerChar c.
Proof. by destruct c as [[] [] [] [] [] [] [] []]. Qed.

Lemma lowerChar_idem c : JS.lowerChar (JS.lowerChar c) = JS.lowerChar c.
Proof. by destruct c as [[] [] [] [] [] [] [] []]. Qed.

Lemma toLowerCase_toUpperCase s :
  JS.toLowerCase (JS.toUpperCase s) = JS.toLowerCase s.
Proof.
  induction s as [|c s IH]; [done|]. simpl. by rewrite lowerChar_upperChar, IH.
Qed.

Lemma toLowerCase_idem s : JS.toLowerCase (JS.toLowerCase s) = JS.toLowerCase s.
Proof.
  induction s as [|c s IH]; [done|]. simpl. by rewrite lowerChar_idem, IH.
Qed.

Lemma isASCII_toUpperCase s :
  JS.isASCII s = true → JS.isASCII (JS.toUpperCase s) = true.
Proof.
  induction s as [|c s IH]; [done|]. simpl.
  intros [Hc Hs]%andb_prop. rewrite (IH Hs), andb_true_r.
  revert Hc. by destruct c as [[] [] [] [] [] [] [] []].
Qed.

Lemma isASCII_toLowerCase s :
  JS.isASCII s = true → JS.isASCII (JS.toLowerCase s) = true.
Proof.
  induction s as [|c s IH]; [done|]. simpl.
  intros [Hc Hs]%andb_prop. rewrite (IH Hs), andb_true_r.
  revert Hc. by destruct c as [[] [] [] [] [] [] [] []].
Qed.

(** X15. On ASCII text the checklist and the classifier colours do not
    depend on letter case: the text, its upper-case form and its lower-case
    form, which are ASCII text again, get the same checklist and the same
    colours. *)
Theorem classification_ignores_case (text : string) :
  JS.isASCII text = true →
  JS.isASCII (JS.toUpperCase text) = true
  ∧ JS.isASCII (JS.toLowerCase text) = true
  ∧ SafetyResponsePanel.getSafetyActions (JS.toUpperCase text)
  = SafetyResponsePanel.getSafetyActions text
  ∧ SafetyResponsePanel.getSafetyActions (JS.toLowerCase text)
    = SafetyResponsePanel.getSafetyActions text
  ∧ Dashboard.getRiskColor (JS.toUpperCase text) = Dashboard.getRiskColor text
  ∧ Dashboard.getRiskColor (JS.toLowerCase text) = Dashboard.getRiskColor text
  ∧ Dashboard.getRiskBadgeColor (JS.toUpperCase text)
    = Dashboard.getRiskBadgeColor text
  ∧ Dashboard.getRiskBadgeColor (JS.toLowerCase text)
    = Dashboard.getRiskBadgeColor text
  ∧ SafetyResponsePanel.getSeverityColor (JS.toUpperCase text)
    = SafetyResponsePanel.getSeverityColor text
  ∧ SafetyResponsePanel.getSeverityColor (JS.toLowerCase text)
    = SafetyResponsePanel.getSeverityColor text.
Proof.
  intros Hascii.
  split; [by apply isASCII_toUpperCase|].
  split; [by apply isASCII_toLowerCase|].
  unfold SafetyResponsePanel.getSafetyActions, Dashboard.getRiskColor,
    Dashboard.getRiskBadgeColor, SafetyResponsePanel.getSeverityColor.
  by rewrite toLowerCase_toUpperCase, toLowerCase_idem.
Qed.

Lemma classification_ignores_case_witness :
  JS.isASCII "Fire and Smoke detected" = true
  ∧ JS.toUpperCase "Fire and Smoke detected" = "FIRE AND SMOKE DETECTED"
  ∧ SafetyResponsePanel.getSafetyActions (JS.toUpperCase "Fire and Smoke detected")
    = SafetyResponsePanel.getSafetyActions "Fire and Smoke detected".
Proof.
  split; [reflexivity|]. split; [reflexivity|].
  exact (proj1 (proj2 (proj2
    (classification_ignores_case "Fire and Smoke detected" eq_refl)))).
Defined.

(** ** The summary cards *)

(** X16. Once a poll has completed the status card reads "Detected", and
    the risk and location cards show the snapshot's [risk_level] and
    [location]; the texts "Normal" and "All Clear" are then shown only for
    a field that is the empty string, and "Clear" is never shown. *)
Theorem summary_cards_after_poll
    (polls : list (Z * Settled Dashboard.HazardDetection)) (now : Z)
    (response : Settled Dashboard.HazardDetection) :
  ∃ h,
    Dashboard.hazard (Dashboard.afterPolls (polls ++ [(now, response)])) = Some h
    ∧ Dashboard.statusCard (Some h) = [Dashboard.Text "Detected"]
    ∧ Dashboard.riskLevelCard (Some h)
      = [Dashboard.Text (if bool_decide (Dashboard.risk_level h = "")
                         then "Normal" else Dashboard.risk_level h)]
    ∧ Dashboard.locationCard (Some h)
      = [Dashboard.Text (if bool_decide (Dashboard.location h = "")
                         then "All Clear" else Dashboard.location h)]
    ∧ Dashboard.statusCard None = [Dashboard.Text "Clear"]
    ∧ Dashboard.riskLevelCard None = [Dashboard.Text "Normal"]
    ∧ Dashboard.locationCard None = [Dashboard.Text "All Clear"].
Proof.
  destruct (Dashboard_afterPolls_snoc polls now response) as [Hh _].
  eexists. split; [exact Hh|]. split; [done|].
  unfold Dashboard.riskLevelCard, Dashboard.locationCard, Dashboard.jsOr,
    Dashboard.optField, Dashboard.truthy.
  split; [by case_bool_decide|]. split; [by case_bool_decide|]. done.
Qed.
